(** * netlify-two: the users API of [netlify/functions/index.js]

    A shallow embedding of the Express application: the body middleware
    mounted on [/api], the [User] model with its validators and unique
    email, and the two route handlers [POST /newUser] and [GET /allUsers].

    The JavaScript values the program handles are an inductive type, the
    database is the table of rows and its key sequence, passed from
    request to request, every handler returns its answer together with
    the database it leaves and the statements it sent, and what the
    program takes from its libraries without defining it ([JSON.parse],
    [Buffer.toString], validator's [isEmail], the parsers of Express) is
    a field of the class [Platform]. *)

From Stdlib Require Import ZArith NArith List Bool String Ascii Lia.
From Stdlib Require Import Strings.Byte.
From Stdlib Require Import Permutation Sorted.
Import ListNotations.

Local Open Scope string_scope.
Local Open Scope list_scope.
Local Open Scope Z_scope.
Set Warnings "-register-all".

(** ** JavaScript values *)

Module JS.

(** A string is its sequence of UTF-16 code units. *)
Definition code_unit := N.
Definition jsstring := list code_unit.

(** The code units of a text given by its UTF-8 bytes, for the
    characters up to U+FFFF, which are all the literals of the source
    have. *)
Fixpoint utf16 (bytes : list N) : jsstring :=
  match bytes with
  | [] => []
  | b :: rest =>
      if (b <? 128)%N then b :: utf16 rest
      else
        match rest with
        | [] => [b]
        | b2 :: rest2 =>
            if (b <? 224)%N then ((b - 192) * 64 + (b2 - 128))%N :: utf16 rest2
            else
              match rest2 with
              | [] => [b; b2]
              | b3 :: rest3 =>
                  ((b - 224) * 4096 + (b2 - 128) * 64 + (b3 - 128))%N
                    :: utf16 rest3
              end
        end
  end.

(** A literal of the source: the Rocq string holds its UTF-8 bytes. *)
Definition lit (s : string) : jsstring :=
  utf16 (map N_of_ascii (list_ascii_of_string s)).

Fixpoint str_eqb (s t : jsstring) : bool :=
  match s, t with
  | [], [] => true
  | c :: s', d :: t' => N.eqb c d && str_eqb s' t'
  | _, _ => false
  end.

(** The values that reach the program: what [JSON.parse] builds, a
    [Buffer] as the serverless host hands it over, [undefined] for an
    absent body or property, and the dates Sequelize puts in the
    timestamp columns.  [JNum] holds the integers, which are the only
    numbers the program computes ([id], [count]). *)
Inductive jsval : Type :=
| JUndefined
| JNull
| JBool (b : bool)
| JNum (n : Z)
| JStr (s : jsstring)
| JBuffer (bytes : list byte)
| JDate (t : Z)
| JArr (items : list jsval)
| JObj (fields : list (string * jsval)).

(** [!v] is [negb (truthy v)]. *)
Definition truthy (v : jsval) : bool :=
  match v with
  | JUndefined | JNull => false
  | JBool b => b
  | JNum n => negb (n =? 0)
  | JStr s => match s with [] => false | _ :: _ => true end
  | JBuffer _ | JDate _ | JArr _ | JObj _ => true
  end.

Definition typeof (v : jsval) : string :=
  match v with
  | JUndefined => "undefined"
  | JBool _ => "boolean"
  | JNum _ => "number"
  | JStr _ => "string"
  | JNull | JBuffer _ | JDate _ | JArr _ | JObj _ => "object"
  end.

Fixpoint lookup (k : string) (fields : list (string * jsval)) : option jsval :=
  match fields with
  | [] => None
  | (k', v) :: rest => if String.eqb k k' then Some v else lookup k rest
  end.

(** [v.k] for a key that no built-in prototype defines ([name], [email],
    [phone], [users], ...): the own property of an object, [undefined]
    on any other value.  Reading a property of [undefined] or [null]
    throws a TypeError: [None]. *)
Definition get (v : jsval) (k : string) : option jsval :=
  match v with
  | JUndefined | JNull => None
  | JObj fields =>
      Some (match lookup k fields with Some x => x | None => JUndefined end)
  | _ => Some JUndefined
  end.

Definition keys (v : jsval) : list string :=
  match v with
  | JObj fields => map fst fields
  | _ => []
  end.

(** ECMAScript WhiteSpace and LineTerminator, the class [\s] of a
    regular expression and what [trim] removes. *)
Definition is_space (c : code_unit) : bool :=
  ((9 <=? c) && (c <=? 13) || (c =? 32) || (c =? 160) || (c =? 5760)
   || (8192 <=? c) && (c <=? 8202) || (c =? 8232) || (c =? 8233)
   || (c =? 8239) || (c =? 8287) || (c =? 12288) || (c =? 65279))%N.

Fixpoint trimStart (s : jsstring) : jsstring :=
  match s with
  | [] => []
  | c :: s' => if is_space c then trimStart s' else s
  end.

Definition trimEnd (s : jsstring) : jsstring := rev (trimStart (rev s)).

Definition trim (s : jsstring) : jsstring := trimEnd (trimStart s).

Definition whitespace_only (s : jsstring) : bool := forallb is_space s.

(** The two halves of a character beyond U+FFFF. *)
Definition is_high (c : code_unit) : bool := ((55296 <=? c) && (c <=? 56319))%N.
Definition is_low (c : code_unit) : bool := ((56320 <=? c) && (c <=? 57343))%N.

End JS.
Import JS.

(** ** Requests and responses *)

(** A request as the middlewares see it: [req.method], the Content-Type
    header ([req.get('Content-Type')]), the bytes the host delivered,
    which the body parsers of Express read from the stream whatever
    [req.body] has become, and [req.body]. *)
Record Request := {
  method : string;
  content_type : option string;
  raw : list byte;
  body : jsval
}.

Definition with_body (req : Request) (v : jsval) : Request :=
  {| method := method req; content_type := content_type req;
     raw := raw req; body := v |}.

Record Response := { status : Z; payload : jsval }.

(** [res.status(code).json(obj)]: the status and the object handed to
    [json], before it is serialized (serializing leaves out the
    properties whose value is [undefined]). *)
Definition json (code : Z) (obj : jsval) : Response :=
  {| status := code; payload := obj |}.

(** A middleware either calls [next()] with the request as it left it, or
    answers. *)
Inductive Step : Type :=
| Next (req : Request)
| Reply (res : Response).

(** ** The table behind the model *)

Module Row.
(** A row of [users]: the columns of [DATA_BASE.define('User', ...)] and
    the two timestamps of [timestamps: true]. *)
Record t := {
  id : Z;
  name : jsstring;
  email : jsstring;
  phone : jsstring;
  createdAt : Z;
  updatedAt : Z
}.
End Row.

(** The statements the model sends to the database. *)
Inductive Statement : Type :=
| Insert (name email phone : jsstring)
| SelectAll.

(** The state of the database: the rows of the table [users], in
    insertion order, and the last value its key sequence gave out (0
    before the first). *)
Record Database := {
  users : list Row.t;
  sequence : Z
}.

(** What running a piece of the program gives: its result, the database
    it leaves, and the statements it sent to the database, in order.  A
    run that sent nothing did not access the store. *)
Record Run (A : Type) := {
  value : A;
  database : Database;
  issued : list Statement
}.
Arguments value {A} _.
Arguments database {A} _.
Arguments issued {A} _.

(** A run that does not reach the database. *)
Definition pure {A : Type} (a : A) (db : Database) : Run A :=
  {| value := a; database := db; issued := [] |}.

(** A run continued by an answer computed from its result. *)
Definition answer {A B : Type} (r : Run A) (f : A -> B) : Run B :=
  {| value := f (value r); database := database r; issued := issued r |}.

(** What a rejected [await] throws, as the handlers inspect it:
    [error.name] and [error.errors.map(err => err.message)]. *)
Record ValidationErrorItem := {
  message : jsstring;
  path : string;
  validatorKey : string
}.

Record Error := {
  error_name : string;
  errors : list ValidationErrorItem
}.

(** ** What a column of type [DataTypes.STRING] keeps

    [DataTypes.STRING] is [VARCHAR(255)], and [DataTypes.INTEGER] with
    [autoIncrement] a key drawn from a sequence of 32-bit integers. *)

Module Pg.

(** The text that reaches the database for a string: the zero character,
    which Postgres does not take, is sent as a backslash and a zero, and
    half a surrogate pair on its own as U+FFFD. *)
Fixpoint sent_text (s : jsstring) : jsstring :=
  match s with
  | [] => []
  | c :: rest =>
      if (c =? 0)%N then 92%N :: 48%N :: sent_text rest
      else if is_high c then
        match rest with
        | [] => [65533%N]
        | d :: rest' =>
            if is_low d then c :: d :: sent_text rest'
            else 65533%N :: sent_text rest
        end
      else if is_low c then 65533%N :: sent_text rest
      else c :: sent_text rest
  end.

(** The characters of a text: a surrogate pair is one character. *)
Fixpoint chars (s : jsstring) : list jsstring :=
  match s with
  | [] => []
  | c :: rest =>
      match rest with
      | [] => [[c]]
      | d :: rest' =>
          if is_high c && is_low d then [c; d] :: chars rest'
          else [c] :: chars rest
      end
  end.

Definition is_blank_char (ch : jsstring) : bool := str_eqb ch [32%N].

(** Assignment to a [VARCHAR(255)] column: a text of at most 255
    characters is kept, a longer one is cut to 255 characters when all
    that is cut off is spaces, and is refused otherwise. *)
Definition varchar255 (s : jsstring) : option jsstring :=
  if (List.length (chars s) <=? 255)%nat then Some s
  else if forallb is_blank_char (skipn 255 (chars s))
       then Some (List.concat (firstn 255 (chars s)))
       else None.

(** What the column keeps of a string of the program, if it takes it. *)
Definition stored (s : jsstring) : option jsstring := varchar255 (sent_text s).

(** The largest key of an [INTEGER] sequence. *)
Definition max_id : Z := 2147483647.

End Pg.

(** A string the table keeps as it is: no zero character, no half of a
    surrogate pair on its own, at most 255 characters. *)
Fixpoint well_formed (s : jsstring) : bool :=
  match s with
  | [] => true
  | c :: rest =>
      if is_high c then
        match rest with
        | [] => false
        | d :: rest' => is_low d && well_formed rest'
        end
      else negb (is_low c) && well_formed rest
  end.

Definition storable (s : jsstring) : bool :=
  forallb (fun c => negb (c =? 0)%N) s
  && well_formed s
  && (List.length (Pg.chars s) <=? 255)%nat.

(** ** What the libraries provide *)

Class Platform := {
  (** [JSON.parse]; [None] when it throws a SyntaxError. *)
  JSON_parse : jsstring -> option jsval;
  (** [buffer.toString('utf8')] *)
  toString_utf8 : list byte -> jsstring;
  (** validator's [isEmail], behind [validate: { isEmail: true }]. *)
  isEmail : jsstring -> bool;
  (** It accepts no address of more than 254 code units, none with the
      zero character and none with half a surrogate pair on its own: an
      accepted address is a string the table keeps as it is. *)
  isEmail_storable : forall e, isEmail e = true -> storable e = true;
  (** [express.json(...)], [express.urlencoded(...)] and [cors(...)], the
      library middlewares mounted between the body middleware and the
      router.  When one of them refuses the request, the answer is the
      one the error middleware of the application makes of its error. *)
  library_middlewares : Request -> Step;
  (** What Express answers when no route matches the request. *)
  final_handler : Request -> Response;
  (** [User.create] on attribute values that are not all strings (a
      number is cast, an object is rejected, ...): left open. *)
  create_untyped :
    Z -> Database -> jsval -> jsval -> jsval -> Run (Error + Row.t)
}.

(** ** The User model *)

Module User.
Section Model.
Context {P : Platform}.

(** Sequelize's [notEmpty]: the string does not match
    [/^[\s\t\r\n]*$/]. *)
Definition notEmpty (s : jsstring) : bool := negb (whitespace_only s).

(** The item a failed built-in validator leaves in [error.errors]. *)
Definition failed (validator field : string) : ValidationErrorItem :=
  {| message := lit "Validation " ++ lit validator ++ lit " on "
                ++ lit field ++ lit " failed";
     path := field;
     validatorKey := validator |}.

Definition check (validator field : string) (ok : bool)
  : list ValidationErrorItem :=
  if ok then [] else [failed validator field].

(** The [validate] entries of the three columns, in the order of the
    definition. *)
Definition validate (name email phone : jsstring) : list ValidationErrorItem :=
  check "notEmpty" "name" (notEmpty name)
  ++ check "isEmail" "email" (isEmail email)
  ++ check "notEmpty" "email" (notEmpty email)
  ++ check "notEmpty" "phone" (notEmpty phone).

Definition SequelizeValidationError (items : list ValidationErrorItem) : Error :=
  {| error_name := "SequelizeValidationError"; errors := items |}.

(** Thrown when a unique index rejects the INSERT (its own items are not
    read by the handler). *)
Definition SequelizeUniqueConstraintError : Error :=
  {| error_name := "SequelizeUniqueConstraintError"; errors := [] |}.

(** Thrown when the database refuses the INSERT for another reason: a
    text too long for its column, a sequence that has no key left. *)
Definition SequelizeDatabaseError : Error :=
  {| error_name := "SequelizeDatabaseError"; errors := [] |}.

(** [unique: true] on [email]. *)
Definition email_taken (email : jsstring) (rows : list Row.t) : bool :=
  existsb (fun r => str_eqb (Row.email r) email) rows.

(** [primaryKey: true] on [id]. *)
Definition id_taken (id : Z) (rows : list Row.t) : bool :=
  existsb (fun r => Row.id r =? id) rows.

(** [User.create({ name, email, phone })] at time [now].  The validators
    run first and nothing is sent when one fails.  Then the INSERT is
    sent: the sequence gives the next key, or has none left; the three
    texts are assigned to their columns, or one is too long; a unique
    index rejects the row, or it is stored, with both timestamps.  A key
    that was given out is not given again, also when the row is not
    stored. *)
Definition create (now : Z) (db : Database) (name email phone : jsval)
  : Run (Error + Row.t) :=
  match name, email, phone with
  | JStr n, JStr e, JStr p =>
      match validate n e p with
      | [] =>
          if Pg.max_id <=? sequence db then
            {| value := inl SequelizeDatabaseError;
               database := db;
               issued := [Insert n e p] |}
          else
            let id := sequence db + 1 in
            match Pg.stored n, Pg.stored e, Pg.stored p with
            | Some n', Some e', Some p' =>
                if id_taken id (users db) || email_taken e' (users db) then
                  {| value := inl SequelizeUniqueConstraintError;
                     database := {| users := users db; sequence := id |};
                     issued := [Insert n e p] |}
                else
                  let row := {| Row.id := id;
                                Row.name := n'; Row.email := e'; Row.phone := p';
                                Row.createdAt := now; Row.updatedAt := now |} in
                  {| value := inr row;
                     database := {| users := users db ++ [row]; sequence := id |};
                     issued := [Insert n e p] |}
            | _, _, _ =>
                {| value := inl SequelizeDatabaseError;
                   database := {| users := users db; sequence := id |};
                   issued := [Insert n e p] |}
            end
      | items => pure (inl (SequelizeValidationError items)) db
      end
  | _, _, _ => create_untyped now db name email phone
  end.

(** A column of a row, as the instance's [toJSON] shows it. *)
Definition column (a : string) (r : Row.t) : jsval :=
  if String.eqb a "id" then JNum (Row.id r)
  else if String.eqb a "name" then JStr (Row.name r)
  else if String.eqb a "email" then JStr (Row.email r)
  else if String.eqb a "phone" then JStr (Row.phone r)
  else if String.eqb a "createdAt" then JDate (Row.createdAt r)
  else if String.eqb a "updatedAt" then JDate (Row.updatedAt r)
  else JUndefined.

(** [attributes: [...]]: the SELECT list. *)
Definition select (attributes : list string) (r : Row.t) : jsval :=
  JObj (map (fun a => (a, column a r)) attributes).

(** The instance [create] resolves to, serialized. *)
Definition toJSON (r : Row.t) : jsval :=
  select ["id"; "name"; "email"; "phone"; "updatedAt"; "createdAt"] r.

(** [order: [['createdAt', 'DESC']]] *)
Fixpoint insert_desc (r : Row.t) (sorted : list Row.t) : list Row.t :=
  match sorted with
  | [] => [r]
  | r' :: rest =>
      if Row.createdAt r' <=? Row.createdAt r then r :: sorted
      else r' :: insert_desc r rest
  end.

Definition order_createdAt_desc (rows : list Row.t) : list Row.t :=
  fold_right insert_desc [] rows.

(** [User.findAll({ attributes, order: [['createdAt', 'DESC']] })] *)
Definition findAll (attributes : list string) (db : Database)
  : Run (Error + list jsval) :=
  {| value := inr (map (select attributes) (order_createdAt_desc (users db)));
     database := db;
     issued := [SelectAll] |}.

End Model.
End User.

(** ** The application *)

Section App.
Context {P : Platform}.

Definition methodsWithBody : list string := ["POST"; "PUT"; "PATCH"].

Definition includes (l : list string) (m : string) : bool :=
  existsb (String.eqb m) l.

(** [Buffer.isBuffer(v)], with the bytes. *)
Definition isBuffer (v : jsval) : option (list byte) :=
  match v with
  | JBuffer bytes => Some bytes
  | _ => None
  end.

(** The middleware mounted on [/api]. *)
Definition body_middleware (req : Request) : Step :=
  match (if includes methodsWithBody (method req)
         then isBuffer (body req) else None) with
  | Some bytes =>
      let bodyString := toString_utf8 bytes in
      if truthy (JStr (trim bodyString)) then
        match JSON_parse bodyString with
        | Some parsed => Next (with_body req parsed)
        | None =>
            Reply (json 400 (JObj [
              ("error", JStr (lit "Formato de datos inválido"));
              ("details", JStr (lit "No se pudo parsear el JSON"))]))
        end
      else Next (with_body req (JObj []))
  | None =>
      if includes methodsWithBody (method req) && negb (truthy (body req))
      then Next (with_body req (JObj []))
      else Next req
  end.

(** [const { name, email, phone } = req.body]; [None] is the TypeError
    of destructuring [undefined] or [null]. *)
Definition destructure (v : jsval) : option (jsval * jsval * jsval) :=
  match get v "name", get v "email", get v "phone" with
  | Some name, Some email, Some phone => Some (name, email, phone)
  | _, _, _ => None
  end.

Definition TypeError : Error := {| error_name := "TypeError"; errors := [] |}.

(** The [catch] of [POST /newUser]. *)
Definition newUser_catch (error : Error) : Response :=
  if String.eqb (error_name error) "SequelizeUniqueConstraintError" then
    json 409 (JObj [("error", JStr (lit "El email ya está registrado"))])
  else if String.eqb (error_name error) "SequelizeValidationError" then
    json 400 (JObj [
      ("error", JStr (lit "Datos de entrada inválidos"));
      ("details", JArr (map (fun err => JStr (message err)) (errors error)))])
  else
    json 500 (JObj [
      ("error", JStr (lit "Error interno del servidor al crear el usuario"))]).

(** [router.post('/newUser', ...)], handling a request at time [now]. *)
Definition post_newUser (now : Z) (db : Database) (req : Request)
  : Run Response :=
  match destructure (body req) with
  | None => pure (newUser_catch TypeError) db
  | Some (name, email, phone) =>
      if negb (truthy name) || negb (truthy email) || negb (truthy phone) then
        pure (json 400 (JObj [
          ("error", JStr (lit "Todos los campos son requeridos: name, email, phone"));
          ("received", JObj [("name", name); ("email", email); ("phone", phone)]);
          ("bodyType", JStr (lit (typeof (body req))))])) db
      else
        answer (User.create now db name email phone) (fun created =>
          match created with
          | inr newUser =>
              json 201 (JObj [
                ("message", JStr (lit "Usuario creado exitosamente"));
                ("user", User.toJSON newUser)])
          | inl error => newUser_catch error
          end)
  end.

(** [router.get('/allUsers', ...)] *)
Definition get_allUsers (db : Database) (req : Request) : Run Response :=
  answer
    (User.findAll ["id"; "name"; "email"; "phone"; "createdAt"; "updatedAt"] db)
    (fun found =>
       match found with
       | inr users =>
           json 200 (JObj [
             ("message", JStr (lit "Usuarios obtenidos exitosamente"));
             ("count", JNum (Z.of_nat (List.length users)));
             ("users", JArr users)])
       | inl _ =>
           json 500 (JObj [
             ("error", JStr (lit "Error interno del servidor al obtener los usuarios"))])
       end).

(** A request to [/api/newUser] through the application, in the order of
    the [app.use] calls: the body middleware, the library middlewares,
    the router.  A middleware that answers ends the chain.  The router
    has [router.post('/newUser', ...)] and no other route of that path:
    a request with another method is left to Express. *)
Definition api_newUser (now : Z) (db : Database) (req : Request)
  : Run Response :=
  match body_middleware req with
  | Reply res => pure res db
  | Next req1 =>
      match library_middlewares req1 with
      | Reply res => pure res db
      | Next req2 =>
          if String.eqb (method req2) "POST" then post_newUser now db req2
          else pure (final_handler req2) db
      end
  end.

End App.

(** ** Vocabulary of the statements *)

(** [a] comes before [b] in a list ordered by [createdAt] descending. *)
Definition newer_first (a b : Row.t) : Prop := Row.createdAt b <= Row.createdAt a.



(** The answer of the field check of [POST /newUser]. *)
Definition fields_required (req : Request) (name email phone : jsval) : Response :=
  json 400 (JObj [
    ("error", JStr (lit "Todos los campos son requeridos: name, email, phone"));
    ("received", JObj [("name", name); ("email", email); ("phone", phone)]);
    ("bodyType", JStr (lit (typeof (body req))))]).

(** The answer of the middleware to a body it cannot parse. *)
Definition malformed_body : Response :=
  json 400 (JObj [
    ("error", JStr (lit "Formato de datos inválido"));
    ("details", JStr (lit "No se pudo parsear el JSON"))]).

(** The [attributes] of the query of [GET /allUsers]. *)
Definition listed_attributes : list string :=
  ["id"; "name"; "email"; "phone"; "createdAt"; "updatedAt"].

(** A stored row as a user of the list: its six columns and nothing
    else. *)
Definition listed_user (r : Row.t) : jsval :=
  JObj [("id", JNum (Row.id r));
        ("name", JStr (Row.name r));
        ("email", JStr (Row.email r));
        ("phone", JStr (Row.phone r));
        ("createdAt", JDate (Row.createdAt r));
        ("updatedAt", JDate (Row.updatedAt r))].

(** ** A platform for the examples

    Closed examples need closed library functions.  These agree with the
    real ones on the inputs the examples use: ASCII bytes, the texts
    [{}], [{] and the empty text, and the addresses [ana@x.com] and
    [ana]. *)

Module Examples.

Definition ascii_toString (bytes : list byte) : jsstring :=
  map (fun b => N_of_ascii (ascii_of_byte b)) bytes.

Definition parse_braces (s : jsstring) : option jsval :=
  if str_eqb s (lit "{}") then Some (JObj []) else None.

Definition has_at_sign (s : jsstring) : bool :=
  existsb (N.eqb 64) s && storable s.

Definition has_at_sign_storable (e : jsstring) (H : has_at_sign e = true)
  : storable e = true :=
  proj2 (andb_prop _ _ H).

(** What Express answers to a request that no route takes. *)
Definition not_found (req : Request) : Response :=
  {| status := 404; payload := JUndefined |}.

Definition platform : Platform :=
  {| JSON_parse := parse_braces;
     toString_utf8 := ascii_toString;
     isEmail := has_at_sign;
     isEmail_storable := has_at_sign_storable;
     library_middlewares := Next;
     final_handler := not_found;
     create_untyped :=
       fun _ db _ _ _ => pure (inl User.SequelizeDatabaseError) db |}.

Definition ana : Row.t :=
  {| Row.id := 1; Row.name := lit "Ana"; Row.email := lit "ana@x.com";
     Row.phone := lit "123"; Row.createdAt := 10; Row.updatedAt := 10 |}.

Definition bob : Row.t :=
  {| Row.id := 2; Row.name := lit "Bob"; Row.email := lit "bob@x.com";
     Row.phone := lit "456"; Row.createdAt := 20; Row.updatedAt := 20 |}.

(** Bob, created with the third key. *)
Definition bob_third : Row.t :=
  {| Row.id := 3; Row.name := lit "Bob"; Row.email := lit "bob@x.com";
     Row.phone := lit "456"; Row.createdAt := 20; Row.updatedAt := 20 |}.

Definition empty_db : Database := {| users := []; sequence := 0 |}.

Definition ana_db : Database := {| users := [ana]; sequence := 1 |}.

Definition two_db : Database := {| users := [ana; bob]; sequence := 2 |}.


Definition user_fields (n e p : string) : jsval :=
  JObj [("name", JStr (lit n)); ("email", JStr (lit e)); ("phone", JStr (lit p))].

(** A POST as the host delivers it: the bytes of a buffer body are the
    bytes of the stream. *)
Definition post (v : jsval) : Request :=
  {| method := "POST"; content_type := None;
     raw := match v with JBuffer bytes => bytes | _ => [] end;
     body := v |}.

Definition get_request : Request :=
  {| method := "GET"; content_type := None; raw := []; body := JUndefined |}.

(** A name of 256 letters. *)
Definition long_name : jsstring := repeat 97%N 256.

(** The parser of [express.json] on the one kind of request of the
    examples that it refuses: under a JSON or text/plain Content-Type, a
    text that is not empty and is all white space is a syntax error,
    which the error middleware answers with status 400. *)
Definition reads_json (req : Request) : bool :=
  match content_type req with
  | Some t => String.eqb t "application/json" || String.eqb t "text/plain"
  | None => false
  end.

Definition syntax_error : Response :=
  {| status := 400;
     payload := JObj [("error", JStr (lit "Unexpected end of JSON input"))] |}.

Definition rereading (req : Request) : Step :=
  if reads_json req
     && match raw req with [] => false | _ :: _ => true end
     && whitespace_only (ascii_toString (raw req))
  then Reply syntax_error
  else Next req.

Definition rereading_platform : Platform :=
  {| JSON_parse := parse_braces;
     toString_utf8 := ascii_toString;
     isEmail := has_at_sign;
     isEmail_storable := has_at_sign_storable;
     library_middlewares := rereading;
     final_handler := not_found;
     create_untyped :=
       fun _ db _ _ _ => pure (inl User.SequelizeDatabaseError) db |}.

Definition blank_json_post : Request :=
  {| method := "POST"; content_type := Some "application/json";
     raw := [x20; x0a]; body := JBuffer [x20; x0a] |}.

End Examples.

(** ** Requests one after the other

    Vocabulary for what the handlers do to the table over time. *)

Definition is_string (v : jsval) : bool :=
  match v with
  | JStr _ => true
  | _ => false
  end.

(** The request keeps [User.create] on strings: whenever its name, email
    and phone all pass the field check of [POST /newUser], the three are
    strings. *)
Definition fields_typed (req : Request) : bool :=
  match destructure (body req) with
  | Some (name, email, phone) =>
      negb (truthy name && truthy email && truthy phone)
      || is_string name && is_string email && is_string phone
  | None => true
  end.

(** [a] was created strictly before [b]. *)
Definition older_first (a b : Row.t) : Prop := Row.createdAt a < Row.createdAt b.

(** The creation times of the rows of the table, followed by the times
    of the requests, go strictly up: every request comes after every
    earlier creation. *)
Definition times_increase (db : Database) (calls : list (Z * Request)) : Prop :=
  StronglySorted Z.lt (map Row.createdAt (users db) ++ map fst calls).

(** The number of answers with status 201. *)
Definition created (answers : list Response) : nat :=
  List.length (filter (fun res => status res =? 201) answers).


Section Sequences.
Context {P : Platform}.

(** The three columns pass every entry of their [validate]. *)
Definition passes_validators (n e p : jsstring) : bool :=
  User.notEmpty n && isEmail e && User.notEmpty e && User.notEmpty p.

Definition stored_valid (r : Row.t) : Prop :=
  passes_validators (Row.name r) (Row.email r) (Row.phone r) = true.

(** The row [User.create] stores for three accepted strings that the
    table keeps as they are. *)
Definition created_row (now : Z) (db : Database) (n e p : jsstring) : Row.t :=
  {| Row.id := sequence db + 1;
     Row.name := n; Row.email := e; Row.phone := p;
     Row.createdAt := now; Row.updatedAt := now |}.

(** [POST /newUser] requests handled one after the other, each at its
    time and on the database the one before left: the answers, and the
    database at the end. *)
Fixpoint replay (db : Database) (calls : list (Z * Request))
  : list Response * Database :=
  match calls with
  | [] => ([], db)
  | (now, req) :: rest =>
      let r := post_newUser now db req in
      let (answers, final) := replay (database r) rest in
      (value r :: answers, final)
  end.

End Sequences.

(** A second platform for the examples, whose [JSON.parse] knows the one
    text [wire_text], the JSON of Ana's fields, and agrees with the real
    one on it. *)
Module Wire.

Definition quoted (s : string) : jsstring := [34%N] ++ lit s ++ [34%N].

Definition wire_text : jsstring :=
  lit "{" ++ quoted "name" ++ lit ":" ++ quoted "Ana" ++ lit ","
  ++ quoted "email" ++ lit ":" ++ quoted "ana@x.com" ++ lit ","
  ++ quoted "phone" ++ lit ":" ++ quoted "123" ++ lit "}".

Definition wire_bytes : list byte :=
  map (fun c => byte_of_ascii (ascii_of_N c)) wire_text.

Definition parse_wire (s : jsstring) : option jsval :=
  if str_eqb s wire_text then Some (Examples.user_fields "Ana" "ana@x.com" "123")
  else None.

Definition platform : Platform :=
  {| JSON_parse := parse_wire;
     toString_utf8 := Examples.ascii_toString;
     isEmail := Examples.has_at_sign;
     isEmail_storable := Examples.has_at_sign_storable;
     library_middlewares := Next;
     final_handler := Examples.not_found;
     create_untyped :=
       fun _ db _ _ _ => pure (inl User.SequelizeDatabaseError) db |}.

End Wire.

(** ** Proof steps

    Boolean tests of code units in the hypotheses, turned into facts about
    the numbers. *)

Ltac bools :=
  repeat match goal with
  | H : (_ && _)%bool = true |- _ => apply andb_true_iff in H; destruct H
  | H : (_ || _)%bool = true |- _ => apply orb_true_iff in H; destruct H
  | H : (_ <=? _)%N = true |- _ => apply N.leb_le in H
  | H : (_ =? _)%N = true |- _ => apply N.eqb_eq in H
  | H : (_ <=? _)%N = false |- _ => apply N.leb_gt in H
  | H : (_ =? _)%N = false |- _ => apply N.eqb_neq in H
  end.

(** ** Strings *)

Lemma str_eqb_eq (s t : jsstring) : str_eqb s t = true <-> s = t.
Proof.
  revert t; induction s as [|c s IH]; intros [|d t]; simpl;
    try (split; [discriminate | discriminate]); try tauto.
  rewrite andb_true_iff, N.eqb_eq, IH.
  split; [intros [-> ->]; reflexivity | intros E; inversion E; auto].
Qed.

Lemma trimStart_nil_iff (s : jsstring) :
  trimStart s = [] <-> whitespace_only s = true.
Proof.
  induction s as [|c s IH]; simpl; [tauto|].
  destruct (is_space c); simpl; [exact IH|].
  split; discriminate.
Qed.

Lemma trimStart_keeps_spaces (s : jsstring) :
  whitespace_only (trimStart s) = true -> whitespace_only s = true.
Proof.
  induction s as [|c s IH]; simpl; [auto|].
  destruct (is_space c) eqn:E; simpl; [exact IH|].
  rewrite E; simpl; auto.
Qed.

Lemma whitespace_only_rev (s : jsstring) :
  whitespace_only (rev s) = whitespace_only s.
Proof.
  unfold whitespace_only.
  apply eq_true_iff_eq. rewrite !forallb_forall.
  split; intros A c Hc; apply A.
  - apply in_rev in Hc. exact Hc.
  - apply in_rev. exact Hc.
Qed.

(** The guard [if (bodyString.trim())] is false exactly on the texts
    made of white space, the empty text among them. *)
Lemma trim_nil_iff (s : jsstring) :
  trim s = [] <-> whitespace_only s = true.
Proof.
  unfold trim, trimEnd. split.
  - intros E. apply (f_equal (@rev _)) in E. rewrite rev_involutive in E.
    simpl in E. apply trimStart_nil_iff in E.
    rewrite whitespace_only_rev in E. apply trimStart_keeps_spaces; exact E.
  - intros E. apply trimStart_nil_iff in E. rewrite E. reflexivity.
Qed.

Lemma truthy_trim (s : jsstring) :
  truthy (JStr (trim s)) = negb (whitespace_only s).
Proof.
  destruct (whitespace_only s) eqn:E.
  - apply trim_nil_iff in E. rewrite E. reflexivity.
  - destruct (trim s) eqn:T; [|reflexivity].
    apply trim_nil_iff in T. congruence.
Qed.

(** ** The table *)

Lemma email_taken_In (e : jsstring) (rows : list Row.t) :
  User.email_taken e rows = true <-> In e (map Row.email rows).
Proof.
  unfold User.email_taken. rewrite existsb_exists, in_map_iff.
  split; intros [r [A B]]; exists r.
  - apply str_eqb_eq in B. auto.
  - split; [auto | apply str_eqb_eq; auto].
Qed.

(** ** Ordering by [createdAt] *)

Lemma insert_desc_perm (r : Row.t) (l : list Row.t) :
  Permutation (r :: l) (User.insert_desc r l).
Proof.
  induction l as [|r' l IH]; simpl; [reflexivity|].
  destruct (Row.createdAt r' <=? Row.createdAt r); [reflexivity|].
  rewrite perm_swap. apply perm_skip. exact IH.
Qed.

Lemma order_perm (rows : list Row.t) :
  Permutation rows (User.order_createdAt_desc rows).
Proof.
  induction rows as [|r rows IH]; simpl; [constructor|].
  rewrite <- insert_desc_perm. apply perm_skip. exact IH.
Qed.

Lemma insert_desc_sorted (r : Row.t) (l : list Row.t) :
  StronglySorted newer_first l -> StronglySorted newer_first (User.insert_desc r l).
Proof.
  induction 1 as [|r' l Hs IH Hall]; simpl.
  - repeat constructor.
  - destruct (Row.createdAt r' <=? Row.createdAt r) eqn:E.
    + apply Z.leb_le in E. constructor.
      * constructor; assumption.
      * constructor; [exact E|].
        eapply Forall_impl; [|exact Hall].
        unfold newer_first; intros; lia.
    + apply Z.leb_gt in E. constructor; [exact IH|].
      rewrite <- insert_desc_perm. constructor; [unfold newer_first; lia | exact Hall].
Qed.

Lemma order_sorted (rows : list Row.t) :
  StronglySorted newer_first (User.order_createdAt_desc rows).
Proof.
  induction rows as [|r rows IH]; simpl; [constructor|].
  apply insert_desc_sorted; exact IH.
Qed.


(** ** What the columns keep *)

Lemma id_taken_In (id : Z) (rows : list Row.t) :
  User.id_taken id rows = true <-> In id (map Row.id rows).
Proof.
  unfold User.id_taken. rewrite existsb_exists, in_map_iff.
  split; intros [r [A B]]; exists r.
  - apply Z.eqb_eq in B. auto.
  - split; [auto | apply Z.eqb_eq; auto].
Qed.

(** Induction two code units at a time, as [sent_text] and [chars] go. *)
Lemma pair_induction {A : Type} (Q : list A -> Prop) :
  Q [] ->
  (forall a, Q [a]) ->
  (forall a b l, Q l -> Q (b :: l) -> Q (a :: b :: l)) ->
  forall l, Q l.
Proof.
  intros Q0 Q1 Q2 l.
  assert (H : Q l /\ forall a, Q (a :: l)).
  { induction l as [|b l [IH1 IH2]].
    - split; [exact Q0 | exact Q1].
    - split; [apply IH2|]. intros a. apply Q2; [exact IH1 | apply IH2]. }
  exact (proj1 H).
Qed.

(** White space is no zero character and no half of a surrogate pair. *)
Lemma space_is_plain (c : code_unit) :
  is_space c = true ->
  (c =? 0)%N = false /\ is_high c = false /\ is_low c = false.
Proof.
  unfold is_space, is_high, is_low. intros H.
  destruct (c =? 0)%N eqn:E0;
    destruct (55296 <=? c)%N eqn:E1; destruct (c <=? 56319)%N eqn:E2;
    destruct (56320 <=? c)%N eqn:E3; destruct (c <=? 57343)%N eqn:E4;
    cbn; repeat split; try reflexivity; exfalso; bools; lia.
Qed.

Lemma sent_text_blank (s : jsstring) :
  whitespace_only (Pg.sent_text s) = true -> whitespace_only s = true.
Proof.
  induction s as [|c rest IH]; [reflexivity|].
  cbn [Pg.sent_text]. intros W.
  destruct (c =? 0)%N eqn:E0; [discriminate W|].
  destruct (is_high c) eqn:Eh.
  - exfalso. destruct rest as [|d rest']; [discriminate W|].
    destruct (is_low d); [|discriminate W].
    cbn [whitespace_only forallb] in W. apply andb_true_iff in W.
    destruct W as [W _]. apply space_is_plain in W. destruct W as [_ [W _]].
    congruence.
  - destruct (is_low c) eqn:El; [discriminate W|].
    cbn [whitespace_only forallb] in W |- *. apply andb_true_iff in W.
    destruct W as [W1 W2]. rewrite W1. apply IH. exact W2.
Qed.

Lemma chars_pair (a b : code_unit) (l : jsstring) :
  Pg.chars (a :: b :: l) =
    if is_high a && is_low b then [a; b] :: Pg.chars l
    else [a] :: Pg.chars (b :: l).
Proof. reflexivity. Qed.

Lemma sent_text_pair (a b : code_unit) (l : jsstring) :
  Pg.sent_text (a :: b :: l) =
    if (a =? 0)%N then 92%N :: 48%N :: Pg.sent_text (b :: l)
    else if is_high a then
      if is_low b then a :: b :: Pg.sent_text l
      else 65533%N :: Pg.sent_text (b :: l)
    else if is_low a then 65533%N :: Pg.sent_text (b :: l)
    else a :: Pg.sent_text (b :: l).
Proof. reflexivity. Qed.

Lemma chars_concat (s : jsstring) : List.concat (Pg.chars s) = s.
Proof.
  induction s as [| a | a b l IH1 IH2] using pair_induction; try reflexivity.
  rewrite chars_pair. destruct (is_high a && is_low b).
  - cbn [List.concat app]. rewrite IH1. reflexivity.
  - cbn [List.concat app]. rewrite IH2. reflexivity.
Qed.

Lemma blanks_are_white (l : list jsstring) :
  forallb Pg.is_blank_char l = true -> whitespace_only (List.concat l) = true.
Proof.
  induction l as [|ch l IH]; [reflexivity|].
  cbn [forallb List.concat]. intros H. apply andb_true_iff in H.
  destruct H as [H1 H2]. apply str_eqb_eq in H1. subst ch.
  unfold whitespace_only in *. rewrite forallb_app, (IH H2). reflexivity.
Qed.

Lemma cut_blank (k : nat) (s s' : jsstring) :
  (if (List.length (Pg.chars s) <=? k)%nat then Some s
   else if forallb Pg.is_blank_char (skipn k (Pg.chars s))
        then Some (List.concat (firstn k (Pg.chars s)))
        else None) = Some s' ->
  whitespace_only s' = true -> whitespace_only s = true.
Proof.
  destruct (List.length (Pg.chars s) <=? k)%nat.
  - intros E W. inversion E; subst. exact W.
  - destruct (forallb Pg.is_blank_char (skipn k (Pg.chars s))) eqn:B;
      [|discriminate].
    intros E W. inversion E as [E']. clear E.
    rewrite <- (chars_concat s).
    rewrite <- (firstn_skipn k (Pg.chars s)).
    rewrite concat_app. unfold whitespace_only in *.
    rewrite forallb_app, E', W. apply blanks_are_white. exact B.
Qed.

Lemma varchar255_blank (s s' : jsstring) :
  Pg.varchar255 s = Some s' ->
  whitespace_only s' = true -> whitespace_only s = true.
Proof. exact (cut_blank 255 s s'). Qed.

(** What a column keeps of a string that is not blank is not blank. *)
Lemma stored_notEmpty (s s' : jsstring) :
  User.notEmpty s = true -> Pg.stored s = Some s' -> User.notEmpty s' = true.
Proof.
  unfold User.notEmpty, Pg.stored. intros N E.
  destruct (whitespace_only s') eqn:W; [|reflexivity].
  apply (varchar255_blank _ _ E) in W. apply sent_text_blank in W.
  rewrite W in N. discriminate N.
Qed.

Lemma sent_text_clean (s : jsstring) :
  forallb (fun c => negb (c =? 0)%N) s = true ->
  well_formed s = true ->
  Pg.sent_text s = s.
Proof.
  induction s as [| a | a b l IH1 IH2] using pair_induction.
  - reflexivity.
  - cbn. destruct (a =? 0)%N; [discriminate|].
    destruct (is_high a); [discriminate|].
    destruct (is_low a); [discriminate | reflexivity].
  - intros Z W. cbn [forallb] in Z. apply andb_true_iff in Z.
    destruct Z as [Za Z]. cbn [well_formed] in W.
    rewrite sent_text_pair.
    destruct (a =? 0)%N; [discriminate Za|].
    destruct (is_high a).
    + apply andb_true_iff in W. destruct W as [Wb W]. rewrite Wb.
      cbn [forallb] in Z. apply andb_true_iff in Z. destruct Z as [_ Z].
      rewrite (IH1 Z W). reflexivity.
    + apply andb_true_iff in W. destruct W as [Wa W].
      destruct (is_low a); [discriminate Wa|].
      rewrite (IH2 Z W). reflexivity.
Qed.

(** A storable string is kept as it is. *)
Lemma stored_storable (s : jsstring) :
  storable s = true -> Pg.stored s = Some s.
Proof.
  unfold storable, Pg.stored, Pg.varchar255. intros S.
  apply andb_true_iff in S. destruct S as [S L].
  apply andb_true_iff in S. destruct S as [Z W].
  rewrite (sent_text_clean s Z W), L. reflexivity.
Qed.

(** ** The create handler *)


Lemma not_blank_not_nil (s : jsstring) : whitespace_only s = false -> s <> [].
Proof. intros B ->. discriminate. Qed.

Lemma field_check_rejects {P : Platform} (now : Z) (db : Database) (req : Request)
    (name email phone : jsval) :
  destructure (body req) = Some (name, email, phone) ->
  negb (truthy name) || negb (truthy email) || negb (truthy phone) = true ->
  post_newUser now db req = pure (fields_required req name email phone) db.
Proof.
  intros D F. unfold post_newUser. rewrite D, F. reflexivity.
Qed.

Lemma field_check_passes {P : Platform} (now : Z) (db : Database) (req : Request)
    (n e p : jsstring) :
  destructure (body req) = Some (JStr n, JStr e, JStr p) ->
  n <> [] -> e <> [] -> p <> [] ->
  post_newUser now db req =
    answer (User.create now db (JStr n) (JStr e) (JStr p)) (fun created =>
      match created with
      | inr newUser =>
          json 201 (JObj [
            ("message", JStr (lit "Usuario creado exitosamente"));
            ("user", User.toJSON newUser)])
      | inl error => newUser_catch error
      end).
Proof.
  intros D Hn He Hp. unfold post_newUser. rewrite D.
  destruct n; [congruence|]. destruct e; [congruence|]. destruct p; [congruence|].
  reflexivity.
Qed.

Lemma validate_nil {P : Platform} (n e p : jsstring) :
  whitespace_only n = false -> whitespace_only e = false ->
  whitespace_only p = false -> isEmail e = true ->
  User.validate n e p = [].
Proof.
  intros Hn He Hp Hm. unfold User.validate, User.check, User.notEmpty.
  rewrite Hn, He, Hp, Hm. reflexivity.
Qed.

(** What [User.create] does with three strings that pass the validators
    and that the table keeps as they are, while the sequence has a key
    left. *)
Lemma create_valid {P : Platform} (now : Z) (db : Database) (n e p : jsstring) :
  User.validate n e p = [] ->
  storable n = true -> storable e = true -> storable p = true ->
  sequence db < Pg.max_id ->
  User.create now db (JStr n) (JStr e) (JStr p) =
    if User.id_taken (sequence db + 1) (users db) || User.email_taken e (users db) then
      {| value := inl User.SequelizeUniqueConstraintError;
         database := {| users := users db; sequence := sequence db + 1 |};
         issued := [Insert n e p] |}
    else
      {| value := inr (created_row now db n e p);
         database := {| users := users db ++ [created_row now db n e p];
                        sequence := sequence db + 1 |};
         issued := [Insert n e p] |}.
Proof.
  intros V Sn Se Sp Q. unfold User.create. rewrite V.
  apply Z.leb_gt in Q. rewrite Q.
  rewrite (stored_storable n Sn), (stored_storable e Se), (stored_storable p Sp).
  reflexivity.
Qed.

Lemma create_invalid {P : Platform} (now : Z) (db : Database) (n e p : jsstring) :
  User.validate n e p <> [] ->
  User.create now db (JStr n) (JStr e) (JStr p) =
    pure (inl (User.SequelizeValidationError (User.validate n e p))) db.
Proof.
  intros V. unfold User.create.
  destruct (User.validate n e p); [congruence | reflexivity].
Qed.





(** C9: when the field check of [POST /newUser] rejects a request, the 400
    body carries, under [received], the values of name, email and phone
    exactly as they were read from the submitted body. *)
Theorem missing_field_echo {P : Platform} (now : Z) (db : Database)
    (req : Request) (name email phone : jsval) :
  get (body req) "name" = Some name ->
  get (body req) "email" = Some email ->
  get (body req) "phone" = Some phone ->
  truthy name = false \/ truthy email = false \/ truthy phone = false ->
  exists received,
    status (value (post_newUser now db req)) = 400
    /\ get (payload (value (post_newUser now db req))) "received" = Some received
    /\ received = JObj [("name", name); ("email", email); ("phone", phone)]
    /\ get received "name" = get (body req) "name"
    /\ get received "email" = get (body req) "email"
    /\ get received "phone" = get (body req) "phone".
Proof.
  intros Gn Ge Gp F.
  assert (D : destructure (body req) = Some (name, email, phone)).
  { unfold destructure. rewrite Gn, Ge, Gp. reflexivity. }
  rewrite (field_check_rejects now db req name email phone D).
  - eexists. repeat split; try reflexivity; cbn; congruence.
  - destruct F as [F | [F | F]]; rewrite F; simpl; rewrite ?orb_true_r; reflexivity.
Qed.

Lemma missing_field_echo_witness :
  exists received,
    status (value (post_newUser (P := Examples.platform) 5 Examples.empty_db
                     (Examples.post (JObj [("name", JStr (lit "Eva"));
                                           ("phone", JNum 0)])))) = 400
    /\ get (payload (value (post_newUser (P := Examples.platform) 5 Examples.empty_db
                     (Examples.post (JObj [("name", JStr (lit "Eva"));
                                           ("phone", JNum 0)]))))) "received"
       = Some received
    /\ received = JObj [("name", JStr (lit "Eva")); ("email", JUndefined);
                        ("phone", JNum 0)].
Proof.
  destruct (missing_field_echo (P := Examples.platform) 5 Examples.empty_db
              (Examples.post (JObj [("name", JStr (lit "Eva")); ("phone", JNum 0)]))
              (JStr (lit "Eva")) JUndefined (JNum 0)
              eq_refl eq_refl eq_refl (or_intror (or_introl eq_refl)))
    as [received [S [G [E _]]]].
  exists received. auto.
Defined.




(** C2, as amended: when a stored row already has the email of a create
    request whose name, email and phone pass the field check and the
    model's validators and are strings that the table keeps as they are
    (at most 255 characters among them), and the key sequence has a key
    left, the INSERT is rejected, the answer is 409 and the rows of the
    table are as they were: no second row with that email. *)
Theorem duplicate_email_conflict {P : Platform} (now : Z) (db : Database)
    (req : Request) (n e p : jsstring) :
  destructure (body req) = Some (JStr n, JStr e, JStr p) ->
  whitespace_only n = false ->
  whitespace_only e = false ->
  whitespace_only p = false ->
  isEmail e = true ->
  storable n = true ->
  storable e = true ->
  storable p = true ->
  In e (map Row.email (users db)) ->
  sequence db < Pg.max_id ->
  post_newUser now db req =
    {| value := json 409 (JObj [("error", JStr (lit "El email ya está registrado"))]);
       database := {| users := users db; sequence := sequence db + 1 |};
       issued := [Insert n e p] |}
  /\ users (database (post_newUser now db req)) = users db.
Proof.
  intros D Hn He Hp Hm Sn Se Sp Hdup Q.
  rewrite (field_check_passes now db req n e p D)
    by (apply not_blank_not_nil; assumption).
  rewrite create_valid by (try apply validate_nil; assumption).
  apply email_taken_In in Hdup. rewrite Hdup, orb_true_r.
  split; reflexivity.
Qed.

Lemma duplicate_email_conflict_witness :
  status (value (post_newUser (P := Examples.platform) 30 Examples.ana_db
                   (Examples.post (Examples.user_fields "Eva" "ana@x.com" "999"))))
  = 409
  /\ users (database (post_newUser (P := Examples.platform) 30 Examples.ana_db
                 (Examples.post (Examples.user_fields "Eva" "ana@x.com" "999"))))
     = [Examples.ana].
Proof.
  destruct (duplicate_email_conflict (P := Examples.platform) 30 Examples.ana_db
             (Examples.post (Examples.user_fields "Eva" "ana@x.com" "999"))
             (lit "Eva") (lit "ana@x.com") (lit "999")
             eq_refl eq_refl eq_refl eq_refl eq_refl eq_refl eq_refl eq_refl
             (or_introl eq_refl) eq_refl) as [E U].
  split; [rewrite E; reflexivity | exact U].
Defined.

(** C2 as stated fails: the table has a row with the email, the second
    request repeats the email and leaves the name out, and the answer is
    400, from the field check.  With the three fields present as
    non-empty strings it still fails on a name of one space: 400, from
    the model's [notEmpty], which runs before the INSERT.  And with a
    name of 256 letters the INSERT is refused for its length before the
    unique index is asked: 500. *)
Lemma duplicate_email_counterexample :
  ~ (forall (now : Z) (db : Database) (req : Request) (e : jsstring),
       get (body req) "email" = Some (JStr e) ->
       In e (map Row.email (users db)) ->
       status (value (post_newUser (P := Examples.platform) now db req)) = 409)
  /\ ~ (forall (now : Z) (db : Database) (req : Request) (n e p : jsstring),
       destructure (body req) = Some (JStr n, JStr e, JStr p) ->
       n <> [] -> e <> [] -> p <> [] ->
       In e (map Row.email (users db)) ->
       status (value (post_newUser (P := Examples.platform) now db req)) = 409)
  /\ status (value (post_newUser (P := Examples.platform) 30 Examples.ana_db
       (Examples.post (JObj [("name", JStr Examples.long_name);
                             ("email", JStr (lit "ana@x.com"));
                             ("phone", JStr (lit "999"))])))) = 500.
Proof.
  assert (A : forall (x : N) (l : list N), x :: l <> []) by discriminate.
  split; [|split]; [intros C | intros C |].
  - specialize (C 30 Examples.ana_db
                  (Examples.post (JObj [("email", JStr (lit "ana@x.com"));
                                        ("phone", JStr (lit "999"))]))
                  (lit "ana@x.com") eq_refl (or_introl eq_refl)).
    discriminate C.
  - specialize (C 30 Examples.ana_db
                  (Examples.post (Examples.user_fields " " "ana@x.com" "999"))
                  (lit " ") (lit "ana@x.com") (lit "999")
                  eq_refl (A _ _) (A _ _) (A _ _) (or_introl eq_refl)).
    discriminate C.
  - vm_compute. reflexivity.
Qed.

(** The scenario of the specification: Ana is created, 201 with id 1; the
    same email under another name is then refused, 409, and the table
    still has the one row. *)
Example create_twice :
  let first :=
    post_newUser (P := Examples.platform) 10 Examples.empty_db
      (Examples.post (Examples.user_fields "Ana" "ana@x.com" "123")) in
  let second :=
    post_newUser (P := Examples.platform) 11 (database first)
      (Examples.post (Examples.user_fields "Eva" "ana@x.com" "123")) in
  status (value first) = 201
  /\ database first = Examples.ana_db
  /\ status (value second) = 409
  /\ users (database second) = [Examples.ana].
Proof. repeat split; reflexivity. Qed.

(** C3: a body whose name, email and phone are non-empty strings, with an
    email that is not of address shape, fails the model's validation
    before anything is sent to the database: the answer is 400, its
    [details] are the messages of the failed validators, each naming its
    field, the one of [isEmail] on [email] among them, and the database
    is as it was. *)
Theorem invalid_email_rejected {P : Platform} (now : Z) (db : Database)
    (req : Request) (n e p : jsstring) :
  destructure (body req) = Some (JStr n, JStr e, JStr p) ->
  n <> [] -> e <> [] -> p <> [] ->
  isEmail e = false ->
  exists items : list ValidationErrorItem,
    post_newUser now db req =
      {| value := json 400 (JObj [
                    ("error", JStr (lit "Datos de entrada inválidos"));
                    ("details", JArr (map (fun err => JStr (message err)) items))]);
         database := db;
         issued := [] |}
    /\ items = User.validate n e p
    /\ In (User.failed "isEmail" "email") items
    /\ Forall (fun err =>
         In (path err) ["name"; "email"; "phone"]
         /\ message err = message (User.failed (validatorKey err) (path err)))
       items.
Proof.
  intros D Hn He Hp Hm.
  assert (Hin : In (User.failed "isEmail" "email") (User.validate n e p)).
  { unfold User.validate. apply in_or_app. right. apply in_or_app. left.
    unfold User.check. rewrite Hm. left. reflexivity. }
  exists (User.validate n e p).
  rewrite (field_check_passes now db req n e p D) by assumption.
  rewrite create_invalid by (intros E; rewrite E in Hin; exact Hin).
  repeat split; try assumption.
  unfold User.validate, User.check.
  repeat (apply Forall_app; split);
    match goal with
    | |- Forall _ (if ?b then _ else _) => destruct b
    end; repeat constructor; cbn; tauto.
Qed.

Lemma invalid_email_rejected_witness :
  post_newUser (P := Examples.platform) 30 Examples.empty_db
    (Examples.post (Examples.user_fields "Ana" "ana" "123")) =
  {| value := json 400 (JObj [
                ("error", JStr (lit "Datos de entrada inválidos"));
                ("details", JArr [JStr (lit "Validation isEmail on email failed")])]);
     database := Examples.empty_db;
     issued := [] |}.
Proof.
  destruct (invalid_email_rejected (P := Examples.platform) 30 Examples.empty_db
              (Examples.post (Examples.user_fields "Ana" "ana" "123"))
              (lit "Ana") (lit "ana") (lit "123") eq_refl
              ltac:(discriminate) ltac:(discriminate) ltac:(discriminate) eq_refl)
    as [items [E [I _]]].
  rewrite E, I. reflexivity.
Defined.

(** ** The list handler *)

(** What the query selects of a row is the row's six columns. *)
Lemma select_listed (r : Row.t) :
  User.select listed_attributes r = listed_user r.
Proof. reflexivity. Qed.

(** C5: whatever the table holds, [GET /allUsers] answers 200 with every
    stored row, each with the values of its six columns, most recently
    created first, and [count] is the number of entries of [users]; the
    database is not changed. *)
Theorem list_all_newest_first (db : Database) (req : Request) :
  exists (rows : list Row.t) (found : list jsval),
    value (get_allUsers db req) =
      json 200 (JObj [
        ("message", JStr (lit "Usuarios obtenidos exitosamente"));
        ("count", JNum (Z.of_nat (List.length found)));
        ("users", JArr found)])
    /\ found = map listed_user rows
    /\ Permutation rows (users db)
    /\ StronglySorted newer_first rows
    /\ List.length found = List.length (users db)
    /\ database (get_allUsers db req) = db.
Proof.
  exists (User.order_createdAt_desc (users db)).
  exists (map listed_user (User.order_createdAt_desc (users db))).
  split; [|split; [|split; [|split; [|split]]]].
  - cbn [get_allUsers answer User.findAll value].
    rewrite (map_ext _ _ select_listed). reflexivity.
  - reflexivity.
  - symmetry. apply order_perm.
  - apply order_sorted.
  - rewrite length_map. symmetry. apply Permutation_length, order_perm.
  - reflexivity.
Qed.

(** C10: every user in the answer of [GET /allUsers] is a stored row
    shown as an object with exactly the keys id, name, email, phone,
    createdAt and updatedAt, each carrying the value of that column of
    the row, and there is one user for each stored row. *)
Theorem list_exposes_six_attributes (db : Database) (req : Request) :
  exists found : list jsval,
    get (payload (value (get_allUsers db req))) "users" = Some (JArr found)
    /\ List.length found = List.length (users db)
    /\ Forall (fun user =>
         keys user = ["id"; "name"; "email"; "phone"; "createdAt"; "updatedAt"]
         /\ exists r : Row.t,
              In r (users db)
              /\ get user "id" = Some (JNum (Row.id r))
              /\ get user "name" = Some (JStr (Row.name r))
              /\ get user "email" = Some (JStr (Row.email r))
              /\ get user "phone" = Some (JStr (Row.phone r))
              /\ get user "createdAt" = Some (JDate (Row.createdAt r))
              /\ get user "updatedAt" = Some (JDate (Row.updatedAt r)))
       found.
Proof.
  exists (map (User.select listed_attributes)
            (User.order_createdAt_desc (users db))).
  split; [reflexivity|]. split.
  - rewrite length_map. symmetry. apply Permutation_length, order_perm.
  - apply Forall_map. apply Forall_forall. intros r Hr.
    split; [reflexivity|]. exists r.
    split; [|repeat split; reflexivity].
    apply (Permutation_in _ (Permutation_sym (order_perm (users db)))). exact Hr.
Qed.

Example list_two :
  value (get_allUsers Examples.two_db Examples.get_request) =
  json 200 (JObj [
    ("message", JStr (lit "Usuarios obtenidos exitosamente"));
    ("count", JNum 2);
    ("users", JArr [listed_user Examples.bob; listed_user Examples.ana])]).
Proof. reflexivity. Qed.

(** ** The body middleware *)

Lemma middleware_on_buffer {P : Platform} (req : Request) (bytes : list byte) :
  includes methodsWithBody (method req) = true ->
  body req = JBuffer bytes ->
  body_middleware req =
    if whitespace_only (toString_utf8 bytes) then Next (with_body req (JObj []))
    else match JSON_parse (toString_utf8 bytes) with
         | Some parsed => Next (with_body req parsed)
         | None => Reply malformed_body
         end.
Proof.
  intros M B. unfold body_middleware. rewrite M, B. cbn [isBuffer].
  rewrite truthy_trim. destruct (whitespace_only (toString_utf8 bytes)); reflexivity.
Qed.

Lemma middleware_off_buffer {P : Platform} (req : Request) :
  includes methodsWithBody (method req) = false \/ isBuffer (body req) = None ->
  body_middleware req =
    Next (if includes methodsWithBody (method req) && negb (truthy (body req))
          then with_body req (JObj []) else req).
Proof.
  intros O. unfold body_middleware.
  destruct (includes methodsWithBody (method req)) eqn:M.
  - destruct O as [O | O]; [discriminate|]. rewrite O. cbn [andb].
    destruct (negb (truthy (body req))); reflexivity.
  - reflexivity.
Qed.

(** A POST that the middlewares hand on reaches the create handler. *)
Lemma api_newUser_post {P : Platform} (now : Z) (db : Database)
    (req req1 : Request) :
  body_middleware req = Next req1 ->
  library_middlewares req1 = Next req1 ->
  method req1 = "POST" ->
  api_newUser now db req = post_newUser now db req1.
Proof.
  intros S L M. unfold api_newUser. rewrite S, L, M. reflexivity.
Qed.

(** C6, as amended: a POST whose body is the empty buffer, or a buffer
    that decodes to white space only, leaves the body middleware with
    the empty object as its body, not with a parse error, and the create
    handler answers that request 400 from its field check.  What the
    application answers is then decided by the library middlewares
    mounted between the two: when they hand the request on as it is, the
    answer is that 400 and the database is not touched; when they answer
    it themselves, as [express.json] does for white space sent as JSON,
    the answer is theirs.  One fact about [toString] is used: the empty
    buffer decodes to the empty text. *)
Theorem blank_buffer_is_empty_object {P : Platform} (now : Z) (db : Database)
    (req : Request) (bytes : list byte) :
  toString_utf8 [] = [] ->
  method req = "POST" ->
  body req = JBuffer bytes ->
  bytes = [] \/ whitespace_only (toString_utf8 bytes) = true ->
  body_middleware req = Next (with_body req (JObj []))
  /\ post_newUser now db (with_body req (JObj [])) =
       pure (fields_required (with_body req (JObj []))
               JUndefined JUndefined JUndefined) db
  /\ status (fields_required (with_body req (JObj []))
               JUndefined JUndefined JUndefined) = 400
  /\ (library_middlewares (with_body req (JObj [])) = Next (with_body req (JObj [])) ->
      api_newUser now db req =
        pure (fields_required (with_body req (JObj []))
                JUndefined JUndefined JUndefined) db
      /\ status (value (api_newUser now db req)) = 400)
  /\ (forall res : Response,
        library_middlewares (with_body req (JObj [])) = Reply res ->
        api_newUser now db req = pure res db).
Proof.
  intros T0 M B W.
  assert (W' : whitespace_only (toString_utf8 bytes) = true).
  { destruct W as [-> | W]; [rewrite T0; reflexivity | exact W]. }
  assert (S : body_middleware req = Next (with_body req (JObj []))).
  { rewrite (middleware_on_buffer req bytes) by (try rewrite M; auto).
    rewrite W'. reflexivity. }
  split; [exact S|]. split; [reflexivity|]. split; [reflexivity|]. split.
  - intros L.
    rewrite (api_newUser_post now db req (with_body req (JObj [])) S L M).
    split; reflexivity.
  - intros res L. unfold api_newUser. rewrite S, L. reflexivity.
Qed.

Lemma blank_buffer_is_empty_object_witness :
  body_middleware (P := Examples.platform) (Examples.post (JBuffer [])) =
    Next (with_body (Examples.post (JBuffer [])) (JObj []))
  /\ status (value (api_newUser (P := Examples.platform) 30 Examples.ana_db
                      (Examples.post (JBuffer [x20; x0a])))) = 400.
Proof.
  split.
  - apply (blank_buffer_is_empty_object (P := Examples.platform) 30 Examples.ana_db
             (Examples.post (JBuffer [])) [] eq_refl eq_refl eq_refl
             (or_introl eq_refl)).
  - destruct (blank_buffer_is_empty_object (P := Examples.platform) 30
                Examples.ana_db (Examples.post (JBuffer [x20; x0a])) [x20; x0a]
                eq_refl eq_refl eq_refl (or_intror eq_refl))
      as [_ [_ [_ [A _]]]].
    apply (A eq_refl).
Defined.

(** C6 as stated fails: a POST sent as [application/json] whose bytes are
    a space and a line feed leaves the body middleware with the empty
    object, but [express.json], mounted behind it, reads the bytes again
    and refuses them: the answer is the 400 of a syntax error, not the
    answer of the field check. *)
Lemma blank_buffer_counterexample :
  ~ (forall (now : Z) (db : Database) (req : Request) (bytes : list byte),
       method req = "POST" ->
       body req = JBuffer bytes ->
       bytes = []
       \/ whitespace_only
            (toString_utf8 (Platform := Examples.rereading_platform) bytes) = true ->
       api_newUser (P := Examples.rereading_platform) now db req =
         pure (fields_required (with_body req (JObj []))
                 JUndefined JUndefined JUndefined) db).
Proof.
  intros C.
  specialize (C 30 Examples.ana_db Examples.blank_json_post [x20; x0a]
                eq_refl eq_refl (or_intror eq_refl)).
  discriminate C.
Qed.

(** C7, as amended: a POST whose buffer decodes to a text that is not
    white space only and that [JSON.parse] rejects is answered 400 by the
    middleware, with the malformed-body message; the chain ends there:
    the database is as it was and nothing was sent to it. *)
Theorem malformed_buffer_rejected {P : Platform} (now : Z) (db : Database)
    (req : Request) (bytes : list byte) :
  method req = "POST" ->
  body req = JBuffer bytes ->
  whitespace_only (toString_utf8 bytes) = false ->
  JSON_parse (toString_utf8 bytes) = None ->
  body_middleware req = Reply malformed_body
  /\ status malformed_body = 400
  /\ api_newUser now db req =
       {| value := malformed_body; database := db; issued := [] |}.
Proof.
  intros M B W J.
  assert (S : body_middleware req = Reply malformed_body).
  { rewrite (middleware_on_buffer req bytes) by (try rewrite M; auto).
    rewrite W, J. reflexivity. }
  unfold api_newUser. rewrite S. repeat split; reflexivity.
Qed.

Lemma malformed_buffer_rejected_witness :
  api_newUser (P := Examples.platform) 30 Examples.ana_db
    (Examples.post (JBuffer [x7b])) =
  {| value := malformed_body; database := Examples.ana_db; issued := [] |}.
Proof.
  apply (malformed_buffer_rejected (P := Examples.platform) 30 Examples.ana_db
           (Examples.post (JBuffer [x7b])) [x7b] eq_refl eq_refl eq_refl eq_refl).
Defined.

(** C7 as stated fails: the empty buffer decodes to the empty text, which
    is not JSON, and the middleware does not answer: it hands on the
    empty object. *)
Lemma malformed_buffer_counterexample :
  ~ (forall (req : Request) (bytes : list byte),
       method req = "POST" ->
       body req = JBuffer bytes ->
       JSON_parse (Platform := Examples.platform)
         (toString_utf8 (Platform := Examples.platform) bytes) = None ->
       exists res,
         body_middleware (P := Examples.platform) req = Reply res
         /\ status res = 400).
Proof.
  intros C.
  destruct (C (Examples.post (JBuffer [])) [] eq_refl eq_refl eq_refl)
    as [res [R _]].
  discriminate R.
Qed.

(** C8, as amended: a request that is not a POST, PUT or PATCH with a
    buffer body is never answered by the middleware and never parsed (the
    result is the same whatever [JSON.parse] and [toString] are).  It is
    handed on unchanged, except that a POST, PUT or PATCH whose body is
    falsy (absent, null, the empty string, 0, false) is handed on with
    the empty object as body.  A GET is always handed on unchanged, also
    with a buffer that would not parse. *)
Theorem middleware_passes_other_requests {P : Platform} (req : Request) :
  includes methodsWithBody (method req) = false \/ isBuffer (body req) = None ->
  (exists req', body_middleware req = Next req'
     /\ method req' = method req
     /\ (body req' = body req
         \/ includes methodsWithBody (method req) = true
            /\ truthy (body req) = false /\ body req' = JObj []))
  /\ (includes methodsWithBody (method req) = false \/ truthy (body req) = true ->
      body_middleware req = Next req)
  /\ (includes methodsWithBody (method req) = true -> truthy (body req) = false ->
      body_middleware req = Next (with_body req (JObj [])))
  /\ (forall Q : Platform,
        body_middleware (P := Q) req = body_middleware (P := P) req)
  /\ (method req = "GET" -> body_middleware req = Next req).
Proof.
  intros O. split; [|split; [|split; [|split]]].
  - rewrite (middleware_off_buffer req O).
    destruct (includes methodsWithBody (method req)) eqn:M;
      destruct (truthy (body req)) eqn:T; cbn [andb negb];
      eexists; (split; [reflexivity|]); (split; [reflexivity|]); auto.
  - intros K. rewrite (middleware_off_buffer req O).
    destruct K as [K | K]; rewrite K; cbn [andb negb];
      rewrite ?andb_false_r; reflexivity.
  - intros M T. rewrite (middleware_off_buffer req O), M, T. reflexivity.
  - intros Q. rewrite (middleware_off_buffer (P := Q) req O).
    rewrite (middleware_off_buffer (P := P) req O). reflexivity.
  - intros G. unfold body_middleware. rewrite G. reflexivity.
Qed.

Lemma middleware_passes_other_requests_witness :
  body_middleware (P := Examples.platform)
    {| method := "GET"; content_type := None; raw := [x7b];
       body := JBuffer [x7b] |}
  = Next {| method := "GET"; content_type := None; raw := [x7b];
            body := JBuffer [x7b] |}.
Proof.
  apply (middleware_passes_other_requests (P := Examples.platform)
           {| method := "GET"; content_type := None; raw := [x7b];
              body := JBuffer [x7b] |} (or_introl eq_refl)).
  reflexivity.
Defined.

(** C8 as stated fails: a POST whose body is the empty string is not a
    buffer request, and its body is not handed on unchanged: it becomes
    the empty object. *)
Lemma middleware_passes_counterexample :
  ~ (forall req : Request,
       includes methodsWithBody (method req) = false \/ isBuffer (body req) = None ->
       exists req',
         body_middleware (P := Examples.platform) req = Next req'
         /\ body req' = body req).
Proof.
  intros C.
  destruct (C (Examples.post (JStr [])) (or_intror eq_refl)) as [req' [N B]].
  inversion N; subst req'. discriminate B.
Qed.

(** ** The outcomes of the create handler *)

Lemma passes_validators_validate {P : Platform} (n e p : jsstring) :
  passes_validators n e p = true <-> User.validate n e p = [].
Proof.
  unfold passes_validators, User.validate, User.check.
  destruct (User.notEmpty n), (isEmail e), (User.notEmpty e), (User.notEmpty p);
    simpl; split; intros E; try reflexivity; discriminate E.
Qed.

Lemma passes_validators_not_nil {P : Platform} (n e p : jsstring) :
  passes_validators n e p = true -> n <> [] /\ e <> [] /\ p <> [].
Proof.
  unfold passes_validators, User.notEmpty. intros V.
  repeat split; intros ->; simpl in V; rewrite ?andb_false_r in V; discriminate V.
Qed.

(** Three strings that do not pass the validators are answered 400
    without store access. *)
Lemma post_newUser_invalid {P : Platform} (now : Z) (db : Database) (req : Request)
    (n e p : jsstring) :
  destructure (body req) = Some (JStr n, JStr e, JStr p) ->
  passes_validators n e p = false ->
  exists res, status res = 400 /\ post_newUser now db req = pure res db.
Proof.
  intros D V.
  destruct (negb (truthy (JStr n)) || negb (truthy (JStr e))
            || negb (truthy (JStr p))) eqn:F.
  - rewrite (field_check_rejects now db req _ _ _ D F).
    eexists; split; [|reflexivity]. reflexivity.
  - assert (Nn : n <> []) by (intros ->; discriminate F).
    assert (Ne : e <> []) by (intros ->; destruct n; discriminate F).
    assert (Np : p <> []) by (intros ->; destruct n, e; discriminate F).
    rewrite (field_check_passes now db req n e p D Nn Ne Np).
    rewrite create_invalid.
    + eexists; split; [|reflexivity]. reflexivity.
    + intros E. apply passes_validators_validate in E. congruence.
Qed.

(** A request with three strings that the table keeps as they are, made
    while the sequence has a key left, goes one of three ways. *)
Lemma post_newUser_strings {P : Platform} (now : Z) (db : Database) (req : Request)
    (n e p : jsstring) :
  destructure (body req) = Some (JStr n, JStr e, JStr p) ->
  storable n = true -> storable e = true -> storable p = true ->
  sequence db < Pg.max_id ->
  (passes_validators n e p = false
   /\ exists res, status res = 400 /\ post_newUser now db req = pure res db)
  \/ (passes_validators n e p = true
      /\ User.id_taken (sequence db + 1) (users db)
         || User.email_taken e (users db) = true
      /\ post_newUser now db req =
           {| value := json 409 (JObj [
                         ("error", JStr (lit "El email ya está registrado"))]);
              database := {| users := users db; sequence := sequence db + 1 |};
              issued := [Insert n e p] |})
  \/ (passes_validators n e p = true
      /\ User.id_taken (sequence db + 1) (users db)
         || User.email_taken e (users db) = false
      /\ post_newUser now db req =
           {| value := json 201 (JObj [
                         ("message", JStr (lit "Usuario creado exitosamente"));
                         ("user", User.toJSON (created_row now db n e p))]);
              database := {| users := users db ++ [created_row now db n e p];
                             sequence := sequence db + 1 |};
              issued := [Insert n e p] |}).
Proof.
  intros D Sn Se Sp Q. destruct (passes_validators n e p) eqn:V.
  - right. apply passes_validators_not_nil in V as N. destruct N as [Nn [Ne Np]].
    rewrite (field_check_passes now db req n e p D Nn Ne Np).
    apply passes_validators_validate in V.
    rewrite (create_valid now db n e p V Sn Se Sp Q).
    destruct (User.id_taken (sequence db + 1) (users db)
              || User.email_taken e (users db)); [left | right];
      repeat split; reflexivity.
  - left. split; [reflexivity|]. apply (post_newUser_invalid now db req n e p D V).
Qed.

(** What [User.create] does with three strings that pass the validators,
    whatever they are: it leaves the rows as they were and throws, or it
    stores one row, under a key and an email that no row had, with what
    the columns keep of the three strings. *)
Lemma create_outcomes {P : Platform} (now : Z) (db : Database) (n e p : jsstring) :
  User.validate n e p = [] ->
  (exists error,
     value (User.create now db (JStr n) (JStr e) (JStr p)) = inl error
     /\ users (database (User.create now db (JStr n) (JStr e) (JStr p))) = users db)
  \/ (exists row,
        value (User.create now db (JStr n) (JStr e) (JStr p)) = inr row
        /\ users (database (User.create now db (JStr n) (JStr e) (JStr p)))
           = users db ++ [row]
        /\ User.id_taken (Row.id row) (users db) = false
        /\ User.email_taken (Row.email row) (users db) = false
        /\ Pg.stored n = Some (Row.name row)
        /\ Pg.stored e = Some (Row.email row)
        /\ Pg.stored p = Some (Row.phone row)
        /\ Row.createdAt row = now).
Proof.
  intros V. unfold User.create. rewrite V.
  destruct (Pg.max_id <=? sequence db).
  - left. eexists. split; reflexivity.
  - destruct (Pg.stored n) as [n'|]; [|left; eexists; split; reflexivity].
    destruct (Pg.stored e) as [e'|]; [|left; eexists; split; reflexivity].
    destruct (Pg.stored p) as [p'|]; [|left; eexists; split; reflexivity].
    destruct (User.id_taken (sequence db + 1) (users db)) eqn:TI;
      [left; eexists; split; reflexivity|].
    destruct (User.email_taken e' (users db)) eqn:TE;
      [left; eexists; split; reflexivity|].
    right. eexists. cbn [orb value database users].
    repeat split; try reflexivity; assumption.
Qed.

(** The answer to an error is never 201. *)
Lemma newUser_catch_not_created {P : Platform} (error : Error) :
  status (newUser_catch error) <> 201.
Proof.
  unfold newUser_catch.
  destruct (String.eqb (error_name error) "SequelizeUniqueConstraintError");
    [discriminate|].
  destruct (String.eqb (error_name error) "SequelizeValidationError");
    discriminate.
Qed.

(** A request that keeps [User.create] on strings either leaves the rows
    as they were, with an answer other than 201, or is answered 201 and
    stores one row created at the time of the request, which passes the
    validators and whose key and email no row had. *)
Lemma post_newUser_typed {P : Platform} (now : Z) (db : Database) (req : Request) :
  fields_typed req = true ->
  (users (database (post_newUser now db req)) = users db
   /\ status (value (post_newUser now db req)) <> 201)
  \/ (exists row,
        status (value (post_newUser now db req)) = 201
        /\ users (database (post_newUser now db req)) = users db ++ [row]
        /\ User.id_taken (Row.id row) (users db) = false
        /\ User.email_taken (Row.email row) (users db) = false
        /\ stored_valid row
        /\ Row.createdAt row = now).
Proof.
  unfold fields_typed. intros T.
  destruct (destructure (body req)) as [[[name email] phone]|] eqn:D.
  - destruct (truthy name && truthy email && truthy phone) eqn:F.
    + simpl in T. destruct name as [| | | |n| | | |]; try discriminate T.
      destruct email as [| | | |e| | | |]; try discriminate T.
      destruct phone as [| | | |p| | | |]; try discriminate T.
      destruct (passes_validators n e p) eqn:V.
      * apply passes_validators_not_nil in V as N. destruct N as [Nn [Ne Np]].
        rewrite (field_check_passes now db req n e p D Nn Ne Np).
        cbn [answer value database].
        pose proof V as V'. apply passes_validators_validate in V'.
        destruct (create_outcomes now db n e p V')
          as [[error [E U]] | [row [E [U [TI [TE [Kn [Ke [Kp C]]]]]]]]];
          rewrite E.
        -- left. split; [exact U | apply newUser_catch_not_created].
        -- right. exists row. repeat split; try assumption.
           unfold stored_valid, passes_validators in *.
           apply andb_true_iff in V. destruct V as [V Vp].
           apply andb_true_iff in V. destruct V as [V Ve].
           apply andb_true_iff in V. destruct V as [Vn Vm].
           rewrite (stored_storable e (isEmail_storable e Vm)) in Ke.
           inversion Ke as [Ke']. rewrite <- Ke'.
           rewrite (stored_notEmpty n _ Vn Kn), (stored_notEmpty p _ Vp Kp).
           rewrite Vm, Ve. reflexivity.
      * destruct (post_newUser_invalid now db req n e p D V) as [res [S E]].
        rewrite E. left. split; [reflexivity|]. cbn. rewrite S. discriminate.
    + left. rewrite (field_check_rejects now db req name email phone D).
      * split; [reflexivity | discriminate].
      * destruct (truthy name), (truthy email), (truthy phone);
          try reflexivity; discriminate F.
  - left. unfold post_newUser. rewrite D. split; [reflexivity | discriminate].
Qed.

(** X1: a create request whose body is [undefined] or [null] makes the
    destructuring throw; the handler catches it and answers 500 with its
    fixed message, the database as it was and nothing sent to it. *)
Theorem nullish_body_internal_error {P : Platform} (now : Z) (db : Database)
    (req : Request) :
  body req = JUndefined \/ body req = JNull ->
  post_newUser now db req =
    pure (json 500 (JObj [
      ("error", JStr (lit "Error interno del servidor al crear el usuario"))])) db.
Proof.
  intros [B | B]; unfold post_newUser; rewrite B; reflexivity.
Qed.

Lemma nullish_body_internal_error_witness :
  status (value (post_newUser (P := Examples.platform) 5 Examples.ana_db
                   (Examples.post JNull))) = 500
  /\ database (post_newUser (P := Examples.platform) 5 Examples.ana_db
                 (Examples.post JNull)) = Examples.ana_db.
Proof.
  rewrite (nullish_body_internal_error (P := Examples.platform) 5 Examples.ana_db
             (Examples.post JNull) (or_intror eq_refl)).
  split; reflexivity.
Defined.



(** X3: for a create request whose name, email and phone are strings
    that the table keeps as they are, made while the key sequence has a
    key left, the rows change only when the answer is 201, and then by
    one row put after the others, with the submitted name, email and
    phone, the next key of the sequence and both timestamps at the time
    of the request; an INSERT is sent exactly when the three strings
    pass the validators, and every INSERT that is sent uses up a key of
    the sequence, whether the row is stored or not. *)
Theorem create_effect_on_table {P : Platform} (now : Z) (db : Database)
    (req : Request) (n e p : jsstring) :
  destructure (body req) = Some (JStr n, JStr e, JStr p) ->
  storable n = true ->
  storable e = true ->
  storable p = true ->
  sequence db < Pg.max_id ->
  users (database (post_newUser now db req)) =
    users db ++ (if status (value (post_newUser now db req)) =? 201
                 then [created_row now db n e p] else [])
  /\ issued (post_newUser now db req) =
       (if passes_validators n e p then [Insert n e p] else [])
  /\ sequence (database (post_newUser now db req)) =
       (if passes_validators n e p then sequence db + 1 else sequence db).
Proof.
  intros D Sn Se Sp Q.
  destruct (post_newUser_strings now db req n e p D Sn Se Sp Q)
    as [[V [res [S E]]] | [[V [K E]] | [V [K E]]]]; rewrite E, V;
    cbn [value pure status json database users sequence issued].
  - rewrite S. cbn. rewrite app_nil_r. repeat split.
  - cbn. rewrite app_nil_r. repeat split.
  - repeat split.
Qed.

Lemma create_effect_on_table_witness :
  users (database (post_newUser (P := Examples.platform) 20 Examples.ana_db
                     (Examples.post (Examples.user_fields "Bob" "bob@x.com" "456"))))
  = [Examples.ana; Examples.bob]
  /\ sequence (database (post_newUser (P := Examples.platform) 21 Examples.ana_db
                     (Examples.post (Examples.user_fields "Eva" "ana@x.com" "999"))))
     = 2.
Proof.
  split.
  - destruct (create_effect_on_table (P := Examples.platform) 20 Examples.ana_db
                (Examples.post (Examples.user_fields "Bob" "bob@x.com" "456"))
                (lit "Bob") (lit "bob@x.com") (lit "456")
                eq_refl eq_refl eq_refl eq_refl eq_refl) as [U _].
    rewrite U. reflexivity.
  - destruct (create_effect_on_table (P := Examples.platform) 21 Examples.ana_db
                (Examples.post (Examples.user_fields "Eva" "ana@x.com" "999"))
                (lit "Eva") (lit "ana@x.com") (lit "999")
                eq_refl eq_refl eq_refl eq_refl eq_refl) as [_ [_ Q]].
    rewrite Q. reflexivity.
Defined.

(** ** What the table keeps over a sequence of create requests *)

Lemma replay_cons {P : Platform} (db : Database) (now : Z) (req : Request)
    (rest : list (Z * Request)) :
  replay db ((now, req) :: rest) =
    (value (post_newUser now db req)
       :: fst (replay (database (post_newUser now db req)) rest),
     snd (replay (database (post_newUser now db req)) rest)).
Proof.
  cbn [replay]. destruct (replay (database (post_newUser now db req)) rest).
  reflexivity.
Qed.

(** A property of the rows that every request keeps is kept by every
    sequence of requests. *)
Lemma replay_keeps {P : Platform} (I : list Row.t -> Prop) :
  (forall now db req,
     fields_typed req = true -> I (users db) ->
     I (users (database (post_newUser now db req)))) ->
  forall calls db,
    Forall (fun call => fields_typed (snd call) = true) calls ->
    I (users db) -> I (users (snd (replay db calls))).
Proof.
  intros Step calls. induction calls as [|[now req] rest IH]; intros db T Hdb.
  - exact Hdb.
  - rewrite replay_cons. cbn [snd]. inversion T; subst.
    apply IH; [assumption|]. apply Step; assumption.
Qed.

Lemma NoDup_snoc {A : Type} (l : list A) (x : A) :
  NoDup l -> ~ In x l -> NoDup (l ++ [x]).
Proof.
  intros N F. apply (Permutation_NoDup (Permutation_cons_append l x)).
  constructor; assumption.
Qed.

(** X4: [unique: true] over time.  If no two rows of the table have the
    same email, then after any sequence of create requests that keep
    [User.create] on strings still no two rows have the same email. *)
Theorem emails_stay_distinct {P : Platform} (calls : list (Z * Request))
    (db : Database) :
  Forall (fun call => fields_typed (snd call) = true) calls ->
  NoDup (map Row.email (users db)) ->
  NoDup (map Row.email (users (snd (replay db calls)))).
Proof.
  apply (replay_keeps (fun rows => NoDup (map Row.email rows))).
  clear. intros now db req T N.
  destruct (post_newUser_typed now db req T)
    as [[E _] | [row [_ [E [_ [K _]]]]]]; rewrite E; [exact N|].
  rewrite map_app. apply NoDup_snoc; [exact N|].
  intros A. apply email_taken_In in A. congruence.
Qed.

Lemma emails_stay_distinct_witness :
  NoDup (map Row.email (users (snd (replay (P := Examples.platform) Examples.empty_db
    [(10, Examples.post (Examples.user_fields "Ana" "ana@x.com" "123"));
     (11, Examples.post (Examples.user_fields "Eva" "ana@x.com" "999"));
     (20, Examples.post (Examples.user_fields "Bob" "bob@x.com" "456"))])))).
Proof.
  apply (emails_stay_distinct (P := Examples.platform)).
  - repeat constructor.
  - constructor.
Defined.

(** X5: [primaryKey] and [autoIncrement] over time.  If no two rows have
    the same id, then after any sequence of create requests that keep
    [User.create] on strings still no two rows have the same id. *)
Theorem ids_stay_distinct {P : Platform} (calls : list (Z * Request))
    (db : Database) :
  Forall (fun call => fields_typed (snd call) = true) calls ->
  NoDup (map Row.id (users db)) ->
  NoDup (map Row.id (users (snd (replay db calls)))).
Proof.
  apply (replay_keeps (fun rows => NoDup (map Row.id rows))).
  clear. intros now db req T N.
  destruct (post_newUser_typed now db req T)
    as [[E _] | [row [_ [E [K _]]]]]; rewrite E; [exact N|].
  rewrite map_app. apply NoDup_snoc; [exact N|].
  intros A. apply id_taken_In in A. congruence.
Qed.

Lemma ids_stay_distinct_witness :
  NoDup (map Row.id (users (snd (replay (P := Examples.platform) Examples.ana_db
    [(11, Examples.post (Examples.user_fields "Eva" "ana@x.com" "999"));
     (20, Examples.post (Examples.user_fields "Bob" "bob@x.com" "456"))])))).
Proof.
  apply (ids_stay_distinct (P := Examples.platform)).
  - repeat constructor.
  - repeat constructor. intros [].
Defined.

(** X6: the validators over time.  If every row of the table passes the
    validators of its columns (name, email and phone not blank, email of
    address shape), then so does every row after any sequence of create
    requests that keep [User.create] on strings. *)
Theorem rows_stay_valid {P : Platform} (calls : list (Z * Request))
    (db : Database) :
  Forall (fun call => fields_typed (snd call) = true) calls ->
  Forall stored_valid (users db) ->
  Forall stored_valid (users (snd (replay db calls))).
Proof.
  apply (replay_keeps (fun rows => Forall stored_valid rows)).
  clear. intros now db req T F.
  destruct (post_newUser_typed now db req T)
    as [[E _] | [row [_ [E [_ [_ [V _]]]]]]]; rewrite E; [exact F|].
  apply Forall_app. split; [exact F|].
  constructor; [exact V | constructor].
Qed.

Lemma rows_stay_valid_witness :
  Forall (stored_valid (P := Examples.platform))
    (users (snd (replay (P := Examples.platform) Examples.ana_db
      [(11, Examples.post (Examples.user_fields " " "eva@x.com" "999"));
       (20, Examples.post (Examples.user_fields "Bob" "bob@x.com" "456"))]))).
Proof.
  apply (rows_stay_valid (P := Examples.platform)).
  - repeat constructor.
  - repeat constructor.
Defined.

(** X7: no create request removes or alters a row.  After any sequence
    of create requests that keep [User.create] on strings the table is
    the table before followed by new rows, one for each answer 201, and
    there is one answer for each request. *)
Theorem table_grows_by_created {P : Platform} (calls : list (Z * Request))
    (db : Database) :
  Forall (fun call => fields_typed (snd call) = true) calls ->
  exists added : list Row.t,
    users (snd (replay db calls)) = users db ++ added
    /\ List.length added = created (fst (replay db calls))
    /\ List.length (fst (replay db calls)) = List.length calls.
Proof.
  revert db. induction calls as [|[now req] rest IH]; intros db T.
  - exists []. cbn. rewrite app_nil_r. repeat split.
  - inversion T as [|c l Tc Trest]; subst. cbn [snd] in Tc.
    rewrite replay_cons. cbn [fst snd].
    destruct (IH (database (post_newUser now db req)) Trest) as [added [U [L N]]].
    unfold created in *. cbn [filter List.length].
    destruct (post_newUser_typed now db req Tc)
      as [[E S] | [row [S [E _]]]].
    + exists added. apply Z.eqb_neq in S. rewrite S. split; [|split].
      * rewrite U, E. reflexivity.
      * exact L.
      * rewrite N. reflexivity.
    + exists (row :: added). rewrite S. split; [|split].
      * rewrite U, E. rewrite <- app_assoc. reflexivity.
      * cbn. rewrite L. reflexivity.
      * rewrite N. reflexivity.
Qed.

Lemma table_grows_by_created_witness :
  exists added : list Row.t,
    users (snd (replay (P := Examples.platform) Examples.ana_db
      [(11, Examples.post (Examples.user_fields "Eva" "ana@x.com" "999"));
       (20, Examples.post (Examples.user_fields "Bob" "bob@x.com" "456"))]))
    = [Examples.ana] ++ added
    /\ List.length added = 1%nat.
Proof.
  destruct (table_grows_by_created (P := Examples.platform)
    [(11, Examples.post (Examples.user_fields "Eva" "ana@x.com" "999"));
     (20, Examples.post (Examples.user_fields "Bob" "bob@x.com" "456"))]
    Examples.ana_db) as [added [U [L _]]].
  - repeat constructor.
  - exists added. split; [exact U | exact L].
Defined.

(** ** Create, then create or list *)

(** X8: a user that was just created is listed.  After a create request
    with three strings that the table keeps as they are (at most 255
    characters, no zero character, no half of a surrogate pair on its
    own) was answered 201, [GET /allUsers] on the database it left
    answers 200, counts one user more than the table had, and lists the
    new user with the submitted name, email and phone and with
    [createdAt] at the time of the create request. *)
Theorem created_user_is_listed {P : Platform} (now : Z) (db : Database)
    (req req' : Request) (n e p : jsstring) :
  destructure (body req) = Some (JStr n, JStr e, JStr p) ->
  storable n = true ->
  storable e = true ->
  storable p = true ->
  status (value (post_newUser now db req)) = 201 ->
  exists (found : list jsval) (listed : jsval),
    value (get_allUsers (database (post_newUser now db req)) req') =
      json 200 (JObj [
        ("message", JStr (lit "Usuarios obtenidos exitosamente"));
        ("count", JNum (Z.of_nat (List.length (users db)) + 1));
        ("users", JArr found)])
    /\ In listed found
    /\ get listed "name" = Some (JStr n)
    /\ get listed "email" = Some (JStr e)
    /\ get listed "phone" = Some (JStr p)
    /\ get listed "createdAt" = Some (JDate now).
Proof.
  intros D Sn Se Sp S.
  assert (Q : sequence db < Pg.max_id).
  { destruct (Pg.max_id <=? sequence db) eqn:Q; [|apply Z.leb_gt; exact Q].
    exfalso. destruct (passes_validators n e p) eqn:V.
    - apply passes_validators_not_nil in V as N. destruct N as [Nn [Ne Np]].
      rewrite (field_check_passes now db req n e p D Nn Ne Np) in S.
      apply passes_validators_validate in V.
      unfold User.create in S. rewrite V, Q in S. discriminate S.
    - destruct (post_newUser_invalid now db req n e p D V) as [res [S' E]].
      rewrite E in S. cbn in S. congruence. }
  destruct (post_newUser_strings now db req n e p D Sn Se Sp Q)
    as [[V [res [S' E]]] | [[V [K E]] | [V [K E]]]]; rewrite E in S |- *.
  - cbn in S. congruence.
  - discriminate S.
  - exists (map (User.select listed_attributes)
              (User.order_createdAt_desc (users db ++ [created_row now db n e p]))).
    exists (User.select listed_attributes (created_row now db n e p)).
    split; [|split].
    + cbn [get_allUsers answer User.findAll value database users].
      rewrite length_map.
      rewrite <- (Permutation_length (order_perm _)).
      rewrite length_app. cbn [List.length].
      rewrite Nat2Z.inj_add. reflexivity.
    + apply in_map. apply (Permutation_in _ (order_perm _)).
      apply in_or_app. right. left. reflexivity.
    + repeat split; reflexivity.
Qed.

Lemma created_user_is_listed_witness :
  exists found : list jsval,
    value (get_allUsers
             (database (post_newUser (P := Examples.platform) 20 Examples.ana_db
                (Examples.post (Examples.user_fields "Bob" "bob@x.com" "456"))))
             Examples.get_request) =
      json 200 (JObj [
        ("message", JStr (lit "Usuarios obtenidos exitosamente"));
        ("count", JNum 2);
        ("users", JArr found)]).
Proof.
  destruct (created_user_is_listed (P := Examples.platform) 20 Examples.ana_db
              (Examples.post (Examples.user_fields "Bob" "bob@x.com" "456"))
              Examples.get_request
              (lit "Bob") (lit "bob@x.com") (lit "456")
              eq_refl eq_refl eq_refl eq_refl eq_refl)
    as [found [listed [E _]]].
  exists found. exact E.
Defined.

(** X9: the same email twice.  After a create request with three strings
    that the table keeps as they are was answered 201, a further create
    request with the same email, and a name and a phone that are not
    blank and that the table keeps as they are (at most 255 characters
    among them), made while the sequence has a key left, is answered 409
    and leaves the rows as the first request left them. *)
Theorem second_create_conflicts {P : Platform} (now now' : Z) (db : Database)
    (req req' : Request) (n e p n' p' : jsstring) :
  destructure (body req) = Some (JStr n, JStr e, JStr p) ->
  storable n = true ->
  storable e = true ->
  storable p = true ->
  status (value (post_newUser now db req)) = 201 ->
  destructure (body req') = Some (JStr n', JStr e, JStr p') ->
  whitespace_only n' = false ->
  whitespace_only p' = false ->
  storable n' = true ->
  storable p' = true ->
  sequence (database (post_newUser now db req)) < Pg.max_id ->
  status (value (post_newUser now' (database (post_newUser now db req)) req')) = 409
  /\ users (database (post_newUser now' (database (post_newUser now db req)) req'))
     = users (database (post_newUser now db req))
  /\ issued (post_newUser now' (database (post_newUser now db req)) req')
     = [Insert n' e p'].
Proof.
  intros D Sn Se Sp S D' Hn Hp Sn' Sp' Q'.
  assert (V : passes_validators n e p = true
              /\ In e (map Row.email (users (database (post_newUser now db req))))).
  { destruct (passes_validators n e p) eqn:V.
    - split; [reflexivity|].
      apply passes_validators_not_nil in V as N. destruct N as [Nn [Ne Np]].
      rewrite (field_check_passes now db req n e p D Nn Ne Np) in S |- *.
      apply passes_validators_validate in V.
      destruct (Pg.max_id <=? sequence db) eqn:Q.
      + unfold User.create in S. rewrite V, Q in S. discriminate S.
      + apply Z.leb_gt in Q.
        rewrite (create_valid now db n e p V Sn Se Sp Q) in S |- *.
        destruct (User.id_taken (sequence db + 1) (users db)
                  || User.email_taken e (users db)); [discriminate S|].
        cbn [answer database users]. rewrite map_app.
        apply in_or_app. right. left. reflexivity.
    - destruct (post_newUser_invalid now db req n e p D V) as [res [S' E]].
      rewrite E in S. cbn in S. congruence. }
  destruct V as [V Hin].
  assert (V' : passes_validators n' e p' = true).
  { unfold passes_validators, User.notEmpty in *. rewrite Hn, Hp.
    destruct (isEmail e), (whitespace_only e), (whitespace_only n),
      (whitespace_only p); try discriminate V; reflexivity. }
  destruct (post_newUser_strings now' (database (post_newUser now db req)) req'
              n' e p' D' Sn' Se Sp' Q')
    as [[W _] | [[_ [_ E]] | [_ [K _]]]].
  - congruence.
  - rewrite E. repeat split.
  - apply email_taken_In in Hin. rewrite Hin, orb_true_r in K. discriminate K.
Qed.

Lemma second_create_conflicts_witness :
  status (value (post_newUser (P := Examples.platform) 11
    (database (post_newUser (P := Examples.platform) 10 Examples.empty_db
       (Examples.post (Examples.user_fields "Ana" "ana@x.com" "123"))))
    (Examples.post (Examples.user_fields "Eva" "ana@x.com" "999")))) = 409.
Proof.
  apply (second_create_conflicts (P := Examples.platform) 10 11 Examples.empty_db
           (Examples.post (Examples.user_fields "Ana" "ana@x.com" "123"))
           (Examples.post (Examples.user_fields "Eva" "ana@x.com" "999"))
           (lit "Ana") (lit "ana@x.com") (lit "123") (lit "Eva") (lit "999")
           eq_refl eq_refl eq_refl eq_refl eq_refl eq_refl eq_refl eq_refl
           eq_refl eq_refl eq_refl).
Defined.

(** ** The order of the list *)

Lemma insert_desc_oldest (r : Row.t) (l : list Row.t) :
  Forall (fun x => older_first r x) l -> User.insert_desc r l = l ++ [r].
Proof.
  induction 1 as [|x l Hx _ IH]; simpl; [reflexivity|].
  unfold older_first in Hx.
  destruct (Row.createdAt x <=? Row.createdAt r) eqn:E.
  - apply Z.leb_le in E. lia.
  - rewrite IH. reflexivity.
Qed.

Lemma order_of_increasing (rows : list Row.t) :
  StronglySorted older_first rows -> User.order_createdAt_desc rows = rev rows.
Proof.
  induction 1 as [|r rows _ IH Hall]; [reflexivity|].
  cbn [User.order_createdAt_desc fold_right rev].
  change (fold_right User.insert_desc [] rows)
    with (User.order_createdAt_desc rows).
  rewrite IH. apply insert_desc_oldest.
  apply Forall_forall. intros x Hx. apply in_rev in Hx.
  rewrite Forall_forall in Hall. apply Hall. exact Hx.
Qed.

(** X10: when the rows of the table were created at strictly increasing
    times, [GET /allUsers] lists them in the reverse of the order in
    which they were stored, the last created first. *)
Theorem list_is_reverse_of_creation (db : Database) (req : Request) :
  StronglySorted older_first (users db) ->
  value (get_allUsers db req) =
    json 200 (JObj [
      ("message", JStr (lit "Usuarios obtenidos exitosamente"));
      ("count", JNum (Z.of_nat (List.length (users db))));
      ("users", JArr (map (User.select listed_attributes) (rev (users db))))]).
Proof.
  intros Sorted.
  cbn [get_allUsers answer User.findAll value].
  rewrite (order_of_increasing (users db) Sorted).
  rewrite length_map, length_rev. reflexivity.
Qed.

Lemma list_is_reverse_of_creation_witness :
  get (payload (value (get_allUsers Examples.two_db Examples.get_request))) "users"
  = Some (JArr [User.select listed_attributes Examples.bob;
                User.select listed_attributes Examples.ana]).
Proof.
  rewrite (list_is_reverse_of_creation Examples.two_db Examples.get_request).
  - reflexivity.
  - repeat constructor.
Defined.

(** ** The body middleware and the route behind it *)

(** X11: the only answer the body middleware ever gives is the 400 for a
    malformed body, and it gives it exactly to a POST, PUT or PATCH whose
    body is a buffer that decodes to a text that is not blank and that
    [JSON.parse] rejects. *)
Theorem middleware_reply_characterised {P : Platform} (req : Request)
    (res : Response) :
  body_middleware req = Reply res
  <-> res = malformed_body
      /\ includes methodsWithBody (method req) = true
      /\ exists bytes,
           body req = JBuffer bytes
           /\ whitespace_only (toString_utf8 bytes) = false
           /\ JSON_parse (toString_utf8 bytes) = None.
Proof.
  split.
  - intros R.
    destruct (includes methodsWithBody (method req)) eqn:M.
    + destruct (isBuffer (body req)) as [bytes|] eqn:B.
      * assert (B' : body req = JBuffer bytes).
        { destruct (body req); try discriminate B. inversion B. reflexivity. }
        rewrite (middleware_on_buffer req bytes M B') in R.
        destruct (whitespace_only (toString_utf8 bytes)) eqn:W; [discriminate R|].
        destruct (JSON_parse (toString_utf8 bytes)) eqn:J; [discriminate R|].
        inversion R. split; [reflexivity|]. split; [reflexivity|].
        exists bytes. repeat split; assumption.
      * rewrite (middleware_off_buffer req (or_intror B)) in R. discriminate R.
    + rewrite (middleware_off_buffer req (or_introl M)) in R. discriminate R.
  - intros [-> [M [bytes [B [W J]]]]].
    rewrite (middleware_on_buffer req bytes M B), W, J. reflexivity.
Qed.

(** X12: a POST, PUT or PATCH whose buffer decodes to a text that is not
    blank and parses leaves the body middleware with the parsed value as
    its body.  When the library middlewares hand that request on as it
    is, a POST then goes through the application as the create handler
    on the parsed value; a PUT or a PATCH reaches no handler, since the
    router has the path for POST only, and the table is not touched. *)
Theorem buffer_reaches_handler_parsed {P : Platform} (now : Z) (db : Database)
    (req : Request) (bytes : list byte) (parsed : jsval) :
  includes methodsWithBody (method req) = true ->
  body req = JBuffer bytes ->
  whitespace_only (toString_utf8 bytes) = false ->
  JSON_parse (toString_utf8 bytes) = Some parsed ->
  library_middlewares (with_body req parsed) = Next (with_body req parsed) ->
  body_middleware req = Next (with_body req parsed)
  /\ (method req = "POST" ->
      api_newUser now db req = post_newUser now db (with_body req parsed))
  /\ (method req <> "POST" ->
      api_newUser now db req = pure (final_handler (with_body req parsed)) db).
Proof.
  intros M B W J L.
  assert (S : body_middleware req = Next (with_body req parsed)).
  { rewrite (middleware_on_buffer req bytes M B), W, J. reflexivity. }
  split; [exact S|]. split; intros K.
  - apply (api_newUser_post now db req (with_body req parsed) S L K).
  - unfold api_newUser. rewrite S, L. cbn [method with_body].
    apply String.eqb_neq in K. rewrite K. reflexivity.
Qed.

Lemma buffer_reaches_handler_parsed_witness :
  api_newUser (P := Wire.platform) 10 Examples.empty_db
    (Examples.post (JBuffer Wire.wire_bytes)) =
  {| value := json 201 (JObj [
                ("message", JStr (lit "Usuario creado exitosamente"));
                ("user", User.toJSON Examples.ana)]);
     database := Examples.ana_db;
     issued := [Insert (lit "Ana") (lit "ana@x.com") (lit "123")] |}
  /\ database (api_newUser (P := Wire.platform) 10 Examples.empty_db
       {| method := "PUT"; content_type := None; raw := Wire.wire_bytes;
          body := JBuffer Wire.wire_bytes |}) = Examples.empty_db.
Proof.
  split.
  - destruct (buffer_reaches_handler_parsed (P := Wire.platform) 10 Examples.empty_db
                (Examples.post (JBuffer Wire.wire_bytes)) Wire.wire_bytes
                (Examples.user_fields "Ana" "ana@x.com" "123")
                eq_refl eq_refl eq_refl eq_refl eq_refl) as [_ [E _]].
    rewrite (E eq_refl). reflexivity.
  - destruct (buffer_reaches_handler_parsed (P := Wire.platform) 10 Examples.empty_db
                {| method := "PUT"; content_type := None; raw := Wire.wire_bytes;
                   body := JBuffer Wire.wire_bytes |} Wire.wire_bytes
                (Examples.user_fields "Ana" "ana@x.com" "123")
                eq_refl eq_refl eq_refl eq_refl eq_refl) as [_ [_ E]].
    rewrite E; [reflexivity | discriminate].
Defined.

(** X13: a POST without a body, or with any body that is falsy, is not
    an error of the server: the body middleware makes the body the empty
    object and, the library middlewares handing that on, the create
    handler answers 400 from its field check, without store access. *)
Theorem absent_body_is_bad_request {P : Platform} (now : Z) (db : Database)
    (req : Request) :
  method req = "POST" ->
  truthy (body req) = false ->
  library_middlewares (with_body req (JObj [])) = Next (with_body req (JObj [])) ->
  body_middleware req = Next (with_body req (JObj []))
  /\ api_newUser now db req =
       pure (fields_required (with_body req (JObj []))
               JUndefined JUndefined JUndefined) db.
Proof.
  intros M F L.
  assert (S : body_middleware req = Next (with_body req (JObj []))).
  { rewrite middleware_off_buffer.
    - rewrite M, F. reflexivity.
    - right. destruct (body req); try reflexivity. discriminate F. }
  split; [exact S|].
  rewrite (api_newUser_post now db req (with_body req (JObj [])) S L M).
  reflexivity.
Qed.

Lemma absent_body_is_bad_request_witness :
  status (value (api_newUser (P := Examples.platform) 10 Examples.ana_db
                   (Examples.post JUndefined))) = 400
  /\ status (value (post_newUser (P := Examples.platform) 10 Examples.ana_db
                      (Examples.post JUndefined))) = 500.
Proof.
  split.
  - destruct (absent_body_is_bad_request (P := Examples.platform) 10
                Examples.ana_db (Examples.post JUndefined)
                eq_refl eq_refl eq_refl) as [_ E].
    rewrite E. reflexivity.
  - reflexivity.
Defined.

(** ** Creation order and the list *)

Lemma StronglySorted_remove {A : Type} (R : A -> A -> Prop) (l1 l2 : list A) (x : A) :
  StronglySorted R (l1 ++ x :: l2) -> StronglySorted R (l1 ++ l2).
Proof.
  induction l1 as [|a l1 IH]; cbn; intros S; inversion S as [|? ? S' F]; subst.
  - exact S'.
  - constructor; [apply IH; exact S'|].
    apply Forall_app in F. destruct F as [F1 F2].
    apply Forall_app. split; [exact F1|]. inversion F2; assumption.
Qed.

Lemma sorted_by_createdAt (rows : list Row.t) :
  StronglySorted Z.lt (map Row.createdAt rows) -> StronglySorted older_first rows.
Proof.
  induction rows as [|r rows IH]; cbn; intros S; [constructor|].
  inversion S as [|? ? S' F]; subst. constructor; [apply IH; exact S'|].
  rewrite Forall_map in F. exact F.
Qed.

Lemma replay_keeps_times {P : Platform} (calls : list (Z * Request)) (db : Database) :
  Forall (fun call => fields_typed (snd call) = true) calls ->
  times_increase db calls ->
  StronglySorted older_first (users (snd (replay db calls))).
Proof.
  revert db. induction calls as [|[now req] rest IH]; intros db T S.
  - cbn. unfold times_increase in S. cbn in S. rewrite app_nil_r in S.
    apply sorted_by_createdAt. exact S.
  - inversion T as [|c l Tc Trest]; subst. cbn [snd] in Tc.
    rewrite replay_cons. cbn [snd]. apply IH; [exact Trest|].
    unfold times_increase in *. cbn [map fst] in S.
    destruct (post_newUser_typed now db req Tc)
      as [[E _] | [row [_ [E [_ [_ [_ C]]]]]]]; rewrite E.
    + apply StronglySorted_remove in S. exact S.
    + rewrite map_app, <- app_assoc. cbn [map app]. rewrite C. exact S.
Qed.

(** X14: the list follows the creation order.  When every create request
    of a sequence comes strictly after every creation before it, the
    table stays ordered by creation time, and [GET /allUsers] after the
    sequence lists the rows in the reverse of the order in which they
    were stored: the user created last comes first. *)
Theorem newest_created_listed_first {P : Platform} (calls : list (Z * Request))
    (db : Database) (req : Request) :
  Forall (fun call => fields_typed (snd call) = true) calls ->
  times_increase db calls ->
  StronglySorted older_first (users (snd (replay db calls)))
  /\ get (payload (value (get_allUsers (snd (replay db calls)) req))) "users" =
       Some (JArr (map (User.select listed_attributes)
                     (rev (users (snd (replay db calls)))))).
Proof.
  intros T S.
  pose proof (replay_keeps_times calls db T S) as Sorted.
  split; [exact Sorted|].
  cbn [get_allUsers answer User.findAll value].
  rewrite (order_of_increasing _ Sorted). reflexivity.
Qed.

Lemma newest_created_listed_first_witness :
  get (payload (value (get_allUsers
    (snd (replay (P := Examples.platform) Examples.empty_db
       [(10, Examples.post (Examples.user_fields "Ana" "ana@x.com" "123"));
        (11, Examples.post (Examples.user_fields "Eva" "ana@x.com" "999"));
        (20, Examples.post (Examples.user_fields "Bob" "bob@x.com" "456"))]))
    Examples.get_request))) "users"
  = Some (JArr [User.select listed_attributes Examples.bob_third;
                User.select listed_attributes Examples.ana]).
Proof.
  destruct (newest_created_listed_first (P := Examples.platform)
    [(10, Examples.post (Examples.user_fields "Ana" "ana@x.com" "123"));
     (11, Examples.post (Examples.user_fields "Eva" "ana@x.com" "999"));
     (20, Examples.post (Examples.user_fields "Bob" "bob@x.com" "456"))]
    Examples.empty_db Examples.get_request) as [_ E].
  - repeat constructor.
  - unfold times_increase. cbn. repeat constructor.
  - rewrite E. reflexivity.
Defined.

(** ** The details of a validation failure *)

Lemma details_of_validate {P : Platform} (n e p : jsstring) :
  map (fun err => JStr (message err)) (User.validate n e p) =
    (if User.notEmpty n then []
     else [JStr (lit "Validation notEmpty on name failed")])
    ++ (if isEmail e then []
        else [JStr (lit "Validation isEmail on email failed")])
    ++ (if User.notEmpty e then []
        else [JStr (lit "Validation notEmpty on email failed")])
    ++ (if User.notEmpty p then []
        else [JStr (lit "Validation notEmpty on phone failed")]).
Proof.
  unfold User.validate, User.check.
  destruct (User.notEmpty n), (isEmail e), (User.notEmpty e), (User.notEmpty p);
    reflexivity.
Qed.

(** Which of four distinct messages are in a list that has each of them
    under its own condition. *)
Lemma flagged_messages {A : Type} (m1 m2 m3 m4 : A) (b1 b2 b3 b4 : bool) :
  m1 <> m2 -> m1 <> m3 -> m1 <> m4 -> m2 <> m3 -> m2 <> m4 -> m3 <> m4 ->
  b1 && b2 && b3 && b4 = false ->
  let details := (if b1 then [] else [m1]) ++ (if b2 then [] else [m2])
                 ++ (if b3 then [] else [m3]) ++ (if b4 then [] else [m4]) in
  (In m1 details <-> b1 = false)
  /\ (In m2 details <-> b2 = false)
  /\ (In m3 details <-> b3 = false)
  /\ (In m4 details <-> b4 = false)
  /\ Forall (fun d => In d [m1; m2; m3; m4]) details
  /\ details <> [].
Proof.
  intros D12 D13 D14 D23 D24 D34 V.
  destruct b1, b2, b3, b4; try discriminate V; cbn;
    (split; [|split; [|split; [|split; [|split]]]]);
    try (split;
         [ intros H; repeat (destruct H as [H | H]; try congruence);
           try contradiction; try reflexivity
         | intros H; try discriminate H; auto 6 ]; fail);
    try (repeat constructor; cbn; auto 6; fail);
    try discriminate.
Qed.

Lemma details_distinct :
  let m1 := JStr (lit "Validation notEmpty on name failed") in
  let m2 := JStr (lit "Validation isEmail on email failed") in
  let m3 := JStr (lit "Validation notEmpty on email failed") in
  let m4 := JStr (lit "Validation notEmpty on phone failed") in
  m1 <> m2 /\ m1 <> m3 /\ m1 <> m4 /\ m2 <> m3 /\ m2 <> m4 /\ m3 <> m4.
Proof.
  cbv zeta. repeat split; intros E; vm_compute in E; discriminate E.
Qed.

(** X15: when name, email and phone are non-empty strings and do not all
    pass the validators, the 400 answer lists under [details] exactly
    the validators that failed: the message of [notEmpty] on a field is
    there if and only if that field is blank, the message of [isEmail] on
    email if and only if the email is not of address shape, and there is
    no other message.  Nothing is sent to the database. *)
Theorem validation_details_exact {P : Platform} (now : Z) (db : Database)
    (req : Request) (n e p : jsstring) :
  destructure (body req) = Some (JStr n, JStr e, JStr p) ->
  n <> [] -> e <> [] -> p <> [] ->
  passes_validators n e p = false ->
  exists details : list jsval,
    post_newUser now db req =
      pure (json 400 (JObj [
              ("error", JStr (lit "Datos de entrada inválidos"));
              ("details", JArr details)])) db
    /\ (In (JStr (lit "Validation notEmpty on name failed")) details
        <-> whitespace_only n = true)
    /\ (In (JStr (lit "Validation isEmail on email failed")) details
        <-> isEmail e = false)
    /\ (In (JStr (lit "Validation notEmpty on email failed")) details
        <-> whitespace_only e = true)
    /\ (In (JStr (lit "Validation notEmpty on phone failed")) details
        <-> whitespace_only p = true)
    /\ Forall (fun detail =>
         In detail [JStr (lit "Validation notEmpty on name failed");
                    JStr (lit "Validation isEmail on email failed");
                    JStr (lit "Validation notEmpty on email failed");
                    JStr (lit "Validation notEmpty on phone failed")]) details
    /\ details <> [].
Proof.
  intros D Nn Ne Np V.
  exists (map (fun err => JStr (message err)) (User.validate n e p)).
  split.
  - rewrite (field_check_passes now db req n e p D Nn Ne Np).
    rewrite create_invalid; [reflexivity|].
    intros E. apply passes_validators_validate in E. congruence.
  - rewrite details_of_validate.
    destruct details_distinct as [D12 [D13 [D14 [D23 [D24 D34]]]]].
    destruct (flagged_messages _ _ _ _ _ _ _ _ D12 D13 D14 D23 D24 D34 V)
      as [I1 [I2 [I3 [I4 [F N]]]]].
    assert (B : forall s, User.notEmpty s = false <-> whitespace_only s = true).
    { intros s. unfold User.notEmpty. destruct (whitespace_only s); simpl;
        split; intros; congruence. }
    rewrite <- !B.
    split; [exact I1|]. split; [exact I2|]. split; [exact I3|].
    split; [exact I4|]. split; [exact F | exact N].
Qed.

Lemma validation_details_exact_witness :
  exists details : list jsval,
    post_newUser (P := Examples.platform) 30 Examples.ana_db
      (Examples.post (Examples.user_fields " " "ana@x.com" "123")) =
    pure (json 400 (JObj [
            ("error", JStr (lit "Datos de entrada inválidos"));
            ("details", JArr details)])) Examples.ana_db
    /\ In (JStr (lit "Validation notEmpty on name failed")) details
    /\ ~ In (JStr (lit "Validation isEmail on email failed")) details.
Proof.
  destruct (validation_details_exact (P := Examples.platform) 30 Examples.ana_db
              (Examples.post (Examples.user_fields " " "ana@x.com" "123"))
              (lit " ") (lit "ana@x.com") (lit "123") eq_refl
              ltac:(discriminate) ltac:(discriminate) ltac:(discriminate) eq_refl)
    as [details [E [I1 [I2 _]]]].
  exists details. split; [exact E|]. split.
  - apply I1. reflexivity.
  - intros H. apply I2 in H. discriminate H.
Defined.
